(** * yellowbrick.regressor: regression score visualizers

    A shallow embedding of [yellowbrick/regressor.py]: the capability gate
    [RegressionScoreVisualizer.__init__] and the two concrete visualizers
    [PredictionError] and [ResidualsPlot] with their [fit] / [score] /
    [draw] / [poof] methods.

    Python objects are mutated in place and exceptions leave every mutation
    made so far visible, so methods are computations in a state-and-exception
    monad whose state survives a [Raise].  The drawing surface (a matplotlib
    Axes) is an external object reached through a reference: pyplot is a
    store of Axes, each one holding the calls it received, in order. *)

From Stdlib Require Import ZArith QArith_base.
From stdpp Require Import gmap strings list.

Local Open Scope string_scope.
Local Open Scope list_scope.
Local Open Scope Z_scope.

(** ** Python values, exceptions, results *)

Definition Ref := nat.

(** The values that flow through keyword arguments, [self.ax] and return
    values: [None], a string (colours are given as strings), an Axes. *)
Inductive PyVal :=
| PyNone
| PyStr (s : string)
| PyAxes (r : Ref).

#[global] Instance PyVal_eq_dec : EqDecision PyVal.
Proof. solve_decision. Defined.

Inductive Exception :=
| YellowbrickTypeError (msg : string)
| AttributeError (msg : string)
| ValueError (msg : string)
| KeyError (key : string)
| ReferenceError (r : Ref)
| EstimatorError (msg : string).

Inductive Result (A : Type) :=
| Return (a : A)
| Raise (e : Exception).
Arguments Return {A} a.
Arguments Raise {A} e.

(** ** The state-and-exception monad *)

Definition M (S A : Type) : Type := S -> Result A * S.

Definition ret {S A} (a : A) : M S A := fun s => (Return a, s).
Definition raise {S A} (e : Exception) : M S A := fun s => (Raise e, s).
Definition bind {S A B} (m : M S A) (k : A -> M S B) : M S B :=
  fun s => match m s with
           | (Return a, s') => k a s'
           | (Raise e, s') => (Raise e, s')
           end.

Declare Scope py_scope.
Delimit Scope py_scope with py.
Notation "x <- m ;; k" := (bind m (fun x => k))
  (at level 100, m at next level, right associativity) : py_scope.
Notation "m ;;; k" := (bind m (fun _ => k))
  (at level 100, right associativity) : py_scope.
Local Open Scope py_scope.

(** ** Python dictionaries *)

(** [d[k]] *)
Definition dict_getitem {S} (d : gmap string PyVal) (k : string) : M S PyVal :=
  match d !! k with
  | Some v => ret v
  | None => raise (KeyError k)
  end.

(** [d.pop(k, default)]: the value and the dictionary without [k]. *)
Definition dict_pop (d : gmap string PyVal) (k : string) (default : PyVal)
  : PyVal * gmap string PyVal :=
  (match d !! k with Some v => v | None => default end, delete k d).

(** [d.get(k)] *)
Definition dict_get (d : gmap string PyVal) (k : string) : PyVal :=
  match d !! k with Some v => v | None => PyNone end.

(** [v.attr] for a method of Axes: only an Axes has it. *)
Definition axes_method {S} (v : PyVal) (attr : string) : M S Ref :=
  match v with
  | PyAxes r => ret r
  | PyNone =>
      raise (AttributeError ("'NoneType' object has no attribute '" +:+ attr +:+ "'"))
  | PyStr _ =>
      raise (AttributeError ("'str' object has no attribute '" +:+ attr +:+ "'"))
  end.

(** [v is None] *)
Definition is_None (v : PyVal) : bool :=
  match v with PyNone => true | _ => false end.

(** ** Numeric series *)

(** The element type of the arrays handed to [draw] (a numpy dtype): the
    code only subtracts, adds one, and compares. *)
Class Scalar (num : Type) := {
  num_sub : num -> num -> num;
  num_add : num -> num -> num;
  num_one : num;
  num_leb : num -> num -> bool
}.

#[global] Instance Z_Scalar : Scalar Z :=
  {| num_sub := Z.sub; num_add := Z.add; num_one := 1; num_leb := Z.leb |}.

Section Series.
Context {num : Type} {scalar : Scalar num}.

Definition num_min (a b : num) : num := if num_leb a b then a else b.
Definition num_max (a b : num) : num := if num_leb a b then b else a.

(** The least and the greatest element, if there is any. *)
Definition min_of (y : list num) : option num :=
  match y with
  | [] => None
  | a :: t => Some (fold_left num_min t a)
  end.

Definition max_of (y : list num) : option num :=
  match y with
  | [] => None
  | a :: t => Some (fold_left num_max t a)
  end.

(** [y.min()] and [y.max()]: numpy raises on a zero-size array. *)
Definition series_min {S} (y : list num) : M S num :=
  match min_of y with
  | Some m => ret m
  | None => raise (ValueError "zero-size array to reduction operation minimum which has no identity")
  end.

Definition series_max {S} (y : list num) : M S num :=
  match max_of y with
  | Some m => ret m
  | None => raise (ValueError "zero-size array to reduction operation maximum which has no identity")
  end.

Fixpoint zip_sub (a b : list num) : list num :=
  match a, b with
  | x :: a', y :: b' => num_sub x y :: zip_sub a' b'
  | _, _ => []
  end.

(** [a - b] on one-dimensional arrays: elementwise, a length-one operand
    is broadcast, any other length mismatch raises. *)
Definition series_sub {S} (a b : list num) : M S (list num) :=
  if decide (length a = length b) then ret (zip_sub a b)
  else match a, b with
       | [x], _ => ret (map (fun y => num_sub x y) b)
       | _, [y] => ret (map (fun x => num_sub x y) a)
       | _, _ => raise (ValueError "operands could not be broadcast together")
       end.
End Series.

(** ** The drawing surface and pyplot *)

Section Surface.
Context {num : Type}.

(** What an Axes has been asked to draw or set, as the visualizers call
    it.  [best_fit_line] is the line that [draw_best_fit] plots. *)
Inductive AxesCall :=
| scatter_call (x y : list num) (c : PyVal) (s : option Z) (alpha : option Q)
| best_fit_line (x y : list num) (estimator ls : string) (lw : Z) (c : PyVal)
| set_xlim_call (lo hi : num)
| set_ylim_call (lo hi : num)
| set_title_call (label : string)
| set_xlabel_call (label : string)
| set_ylabel_call (label : string)
| hlines_call (y xmin xmax : Z).

(** pyplot's process-wide state: the Axes that exist, the current Axes
    (what [plt.gca()] answers), and how often [plt.show()] ran. *)
Record Pyplot := {
  axes : gmap Ref (list AxesCall);
  current : option Ref;
  shown : nat
}.

Definition set_axes (f : gmap Ref (list AxesCall) -> gmap Ref (list AxesCall))
    (p : Pyplot) : Pyplot :=
  {| axes := f (axes p); current := current p; shown := shown p |}.

(** [plt.gca()]: the current Axes; a new, empty one is created and made
    current when there is none. *)
Definition plt_gca : M Pyplot Ref :=
  fun p => match current p with
           | Some r => (Return r, p)
           | None =>
               let r := fresh (dom (axes p)) in
               (Return r, {| axes := <[r := []]> (axes p);
                             current := Some r;
                             shown := shown p |})
           end.

(** A method call on the Axes behind reference [r].  A reference to an
    Axes that does not exist cannot arise in Python; the model answers
    [ReferenceError]. *)
Definition axes_call (r : Ref) (c : AxesCall) : M Pyplot unit :=
  fun p => match axes p !! r with
           | Some log => (Return tt, set_axes <[r := log ++ [c]]> p)
           | None => (Raise (ReferenceError r), p)
           end.

(** [ax.scatter(x, y, c=, s=, alpha=)]: matplotlib refuses series of
    different sizes. *)
Definition Axes_scatter (r : Ref) (x y : list num) (c : PyVal)
    (s : option Z) (alpha : option Q) : M Pyplot unit :=
  if decide (length x = length y)
  then axes_call r (scatter_call x y c s alpha)
  else raise (ValueError "x and y must be the same size").

Definition Axes_set_xlim (r : Ref) (lo hi : num) : M Pyplot unit :=
  axes_call r (set_xlim_call lo hi).
Definition Axes_set_ylim (r : Ref) (lo hi : num) : M Pyplot unit :=
  axes_call r (set_ylim_call lo hi).
Definition Axes_set_title (r : Ref) (label : string) : M Pyplot unit :=
  axes_call r (set_title_call label).
Definition Axes_set_ylabel (r : Ref) (label : string) : M Pyplot unit :=
  axes_call r (set_ylabel_call label).
Definition Axes_hlines (r : Ref) (y xmin xmax : Z) : M Pyplot unit :=
  axes_call r (hlines_call y xmin xmax).

(** [plt.xlabel(s)] labels the current Axes: [gca().set_xlabel(s)]. *)
Definition plt_xlabel (label : string) : M Pyplot unit :=
  r <- plt_gca ;; axes_call r (set_xlabel_call label).

(** [plt.show()] *)
Definition plt_show : M Pyplot unit :=
  fun p => (Return tt, {| axes := axes p; current := current p;
                          shown := S (shown p) |}).

(** Modelled from the spec: [draw_best_fit] of [yellowbrick/bestfit.py],
    which is not among the sources.  "Given two equal-length numeric
    series, a surface, a fit kind and stroke style parameters, fits a
    trend line to the series and draws it": one line on the surface. *)
Definition draw_best_fit (x y : list num) (ax : PyVal) (estimator : string)
    (ls : string) (lw : Z) (c : PyVal) : M Pyplot unit :=
  if decide (length x = length y)
  then r <- axes_method ax "plot" ;;
       axes_call r (best_fit_line x y estimator ls lw c)
  else raise (ValueError "X and y must have same length").

(** What a surface shows: the scatter marks and the best-fit lines among
    the calls it received, and the limits and labels last set. *)
Definition marks_of (c : AxesCall) : nat :=
  match c with scatter_call x _ _ _ _ => length x | _ => 0%nat end.
Definition scatter_marks (log : list AxesCall) : nat :=
  sum_list_with marks_of log.

Definition is_best_fit (c : AxesCall) : bool :=
  match c with best_fit_line _ _ _ _ _ _ => true | _ => false end.
Definition best_fit_lines (log : list AxesCall) : nat :=
  sum_list_with (fun c => if is_best_fit c then 1%nat else 0%nat) log.

Definition xlim_of (c : AxesCall) : option (num * num) :=
  match c with set_xlim_call lo hi => Some (lo, hi) | _ => None end.
Definition ylim_of (c : AxesCall) : option (num * num) :=
  match c with set_ylim_call lo hi => Some (lo, hi) | _ => None end.
Definition xlabel_of (c : AxesCall) : option string :=
  match c with set_xlabel_call t => Some t | _ => None end.

(** The value of the last call that sets an attribute. *)
Definition last_set {A} (f : AxesCall -> option A) (log : list AxesCall)
  : option A :=
  fold_left (fun acc c => match f c with Some a => Some a | None => acc end)
            log None.

(** The scatter points an Axes shows: one (x, y, colour, opacity) per
    sample of every [scatter] call. *)
Definition points_of (c : AxesCall)
  : list (num * num * PyVal * option Q) :=
  match c with
  | scatter_call x y col _ alpha =>
      map (fun xy => (xy.1, xy.2, col, alpha)) (zip x y)
  | _ => []
  end.
Definition scatter_points (log : list AxesCall) :=
  concat (map points_of log).
End Surface.
Arguments AxesCall : clear implicits.
Arguments Pyplot : clear implicits.

(** ** Estimators and the visualizer object *)

(** The estimator is an external object; the visualizers use its [fit] and
    [predict] and, through [yellowbrick/utils.py] (not among the sources),
    the capability predicate [isregressor] and [get_model_name].  All four
    are taken as given.  Training changes the estimator, and either method
    may raise. *)
Class Estimator (Model X num : Type) := {
  isregressor : Model -> bool;
  get_model_name : Model -> string;
  est_fit : Model -> X -> list num -> Result Model;
  est_predict : Model -> X -> Result (list num)
}.

Section Visualizers.
Context {Model X num : Type} {scalar : Scalar num}
  {est : Estimator Model X num}.

(** The attributes of a visualizer: [self.estimator], [self.name],
    [self.ax], [self.colors]. *)
Record Visualizer := {
  estimator : Model;
  name : string;
  ax : PyVal;
  colors : gmap string PyVal
}.

Definition set_colors (v : Visualizer) (c : gmap string PyVal) : Visualizer :=
  {| estimator := estimator v; name := name v; ax := ax v; colors := c |}.
Definition set_ax (v : Visualizer) (a : PyVal) : Visualizer :=
  {| estimator := estimator v; name := name v; ax := a; colors := colors v |}.
Definition set_estimator (v : Visualizer) (m : Model) : Visualizer :=
  {| estimator := m; name := name v; ax := ax v; colors := colors v |}.

(** A method runs on [self] and on pyplot. *)
Record State := { self : Visualizer; plt : Pyplot num }.

Definition in_plt {A} (m : M (Pyplot num) A) : M State A :=
  fun s => let (r, p) := m (plt s) in (r, {| self := self s; plt := p |}).
Definition self_ax : M State PyVal :=
  fun s => (Return (ax (self s)), s).
Definition assign_self_ax (a : PyVal) : M State unit :=
  fun s => (Return tt, {| self := set_ax (self s) a; plt := plt s |}).
Definition self_name : M State string :=
  fun s => (Return (name (self s)), s).
Definition self_colors (k : string) : M State PyVal :=
  fun s => dict_getitem (colors (self s)) k s.

(** *** The base class, [yellowbrick/base.py] *)

(** Modelled from the spec: [ScoreVisualizer.__init__] of
    [yellowbrick/base.py], which is not among the sources.  "Delegates to
    the generic Visualizer constructor, storing the estimator and deriving
    the display name"; the Visualizer "holds a nullable reference to a
    drawing Surface", which "may be supplied externally" (the [ax]
    option).  The source's comments say the same: [self.ax = None] is
    "hoisted to Visualizer base class" and
    [self.name = get_model_name(self.estimator)] "to ScoreVisualizer". *)
Definition ScoreVisualizer_init (model : Model) (kwargs : gmap string PyVal)
  : M (Pyplot num) Visualizer :=
  ret {| estimator := model;
         name := get_model_name model;
         ax := dict_get kwargs "ax";
         colors := ∅ |}.

(** Modelled from the spec: [ScoreVisualizer.fit] of
    [yellowbrick/base.py], which is not among the sources.  "The base fit
    behavior (invokes estimator training)." *)
Definition ScoreVisualizer_fit (x : X) (y : list num) : M State unit :=
  fun s => match est_fit (estimator (self s)) x y with
           | Return m => (Return tt, {| self := set_estimator (self s) m;
                                        plt := plt s |})
           | Raise e => (Raise e, s)
           end.

(** Modelled from the spec: [ScoreVisualizer.predict] of
    [yellowbrick/base.py], which is not among the sources.
    "[y_pred = estimator.predict(X)]." *)
Definition ScoreVisualizer_predict (x : X) : M State (list num) :=
  fun s => (est_predict (estimator (self s)) x, s).

(** *** Constructors *)

Section Constructors.
(** [super(RegressionScoreVisualizer, self).__init__]: the next
    constructor in the method resolution order. *)
Variable super_init :
  Model -> gmap string PyVal -> M (Pyplot num) Visualizer.

Definition RegressionScoreVisualizer_init
    (model : Model) (kwargs : gmap string PyVal)
  : M (Pyplot num) Visualizer :=
  if negb (isregressor model)
  then raise (YellowbrickTypeError
                ("This estimator is not a regressor; try a classifier or "
                 +:+ "clustering score visualizer instead!"))
  else super_init model kwargs.

Definition PredictionError_init
    (model : Model) (kwargs : gmap string PyVal)
  : M (Pyplot num) Visualizer :=
  v <- RegressionScoreVisualizer_init model kwargs ;;
  let '(point, kwargs) := dict_pop kwargs "point_color" (PyStr "#F2BE2C") in
  let '(line, kwargs) := dict_pop kwargs "line_color" (PyStr "#2B94E9") in
  ret (set_colors v (<["point" := point]> (<["line" := line]> ∅))).

Definition ResidualsPlot_init
    (model : Model) (kwargs : gmap string PyVal)
  : M (Pyplot num) Visualizer :=
  v <- RegressionScoreVisualizer_init model kwargs ;;
  let '(train_point, kwargs) :=
    dict_pop kwargs "train_point_color" (PyStr "#2B94E9") in
  let '(test_point, kwargs) :=
    dict_pop kwargs "test_point_color" (PyStr "#94BA65") in
  let '(line, kwargs) := dict_pop kwargs "line_color" (PyStr "#333333") in
  ret (set_colors v (<["train_point" := train_point]>
                     (<["test_point" := test_point]>
                      (<["line" := line]> ∅)))).
End Constructors.

(** *** PredictionError *)

(** One parenthesised block per statement of the source. *)
Definition PredictionError_draw (y y_pred : list num) : M State PyVal :=
  (a <- self_ax ;;
   if is_None a
   then r <- in_plt plt_gca ;; assign_self_ax (PyAxes r)
   else ret tt) ;;;
  (a <- self_ax ;;
   r <- axes_method a "scatter" ;;
   in_plt (Axes_scatter r y y_pred (PyStr "#F2BE2C") None None)) ;;;
  (a <- self_ax ;;
   line <- self_colors "line" ;;
   in_plt (draw_best_fit y y_pred a "linear" "--" 2 line)) ;;;
  (a <- self_ax ;;
   r <- axes_method a "set_xlim" ;;
   lo <- series_min y ;;
   hi <- series_max y ;;
   in_plt (Axes_set_xlim r (num_sub lo num_one) (num_add hi num_one))) ;;;
  (a <- self_ax ;;
   r <- axes_method a "set_ylim" ;;
   lo <- series_min y_pred ;;
   hi <- series_max y_pred ;;
   in_plt (Axes_set_ylim r (num_sub lo num_one) (num_add hi num_one))) ;;;
  self_ax.

Definition PredictionError_score (x : X) (y : list num) : M State PyVal :=
  y_pred <- ScoreVisualizer_predict x ;;
  PredictionError_draw y y_pred.

Definition PredictionError_poof : M State PyVal :=
  (a <- self_ax ;;
   r <- axes_method a "set_title" ;;
   n <- self_name ;;
   in_plt (Axes_set_title r ("Prediction Error for " +:+ n))) ;;;
  (a <- self_ax ;;
   r <- axes_method a "set_ylabel" ;;
   in_plt (Axes_set_ylabel r "Predicted")) ;;;
  in_plt (plt_xlabel "Measured") ;;;
  in_plt plt_show ;;;
  self_ax.

(** *** ResidualsPlot *)

Definition ResidualsPlot_draw (y_pred residuals : list num) (train : bool)
  : M State PyVal :=
  (a <- self_ax ;;
   if is_None a
   then r <- in_plt plt_gca ;; assign_self_ax (PyAxes r)
   else ret tt) ;;;
  color <- (if train then self_colors "train_point"
            else self_colors "test_point") ;;
  let alpha := if train then Qmake 1 2 else Qmake 1 1 in
  (a <- self_ax ;;
   r <- axes_method a "scatter" ;;
   in_plt (Axes_scatter r y_pred residuals color (Some 40) (Some alpha))) ;;;
  self_ax.

Definition ResidualsPlot_score (x : X) (y : list num) (train : bool)
  : M State PyVal :=
  y_pred <- ScoreVisualizer_predict x ;;
  scores <- series_sub y_pred y ;;
  ResidualsPlot_draw y_pred scores train ;;;
  ret PyNone.

Definition ResidualsPlot_fit (x : X) (y : list num) : M State PyVal :=
  ScoreVisualizer_fit x y ;;;
  ResidualsPlot_score x y true ;;;
  ret PyNone.

Definition ResidualsPlot_poof : M State PyVal :=
  a <- self_ax ;;
  if is_None a then ret PyNone else
  (a <- self_ax ;;
   r <- axes_method a "hlines" ;;
   in_plt (Axes_hlines r 0 0 100)) ;;;
  (a <- self_ax ;;
   r <- axes_method a "set_title" ;;
   n <- self_name ;;
   in_plt (Axes_set_title r ("Residuals for " +:+ n +:+ " Model"))) ;;;
  (a <- self_ax ;;
   r <- axes_method a "set_ylabel" ;;
   in_plt (Axes_set_ylabel r "Residuals")) ;;;
  in_plt (plt_xlabel "Predicted Value") ;;;
  in_plt plt_show ;;;
  self_ax.

(** *** The surface a visualizer draws on *)

(** pyplot's current Axes exists. *)
Definition plt_wf (p : Pyplot num) : Prop :=
  match current p with
  | Some r => is_Some (axes p !! r)
  | None => True
  end.

(** The Axes that the next [draw] lands on, with what it shows so far:
    the one [self.ax] refers to, else pyplot's current one, else a new
    one. *)
Definition drawing_surface (s : State) : option (Ref * list (AxesCall num)) :=
  match ax (self s) with
  | PyAxes r => pair r <$> axes (plt s) !! r
  | PyNone =>
      match current (plt s) with
      | Some r => pair r <$> axes (plt s) !! r
      | None => Some (fresh (dom (axes (plt s))), [])
      end
  | PyStr _ => None
  end.

(** The state in which Axes [r] shows [log] and all else is as in [s]. *)
Definition draw_on (s : State) (r : Ref) (log : list (AxesCall num)) : State :=
  {| self := self s; plt := set_axes <[r := log]> (plt s) |}.

(** What a computation may do to [self.ax]: leave it, or set it to an
    Axes when it was [None]. *)
Definition acquires_once {A} (m : M State A) : Prop :=
  forall s, ax (self (m s).2) = ax (self s) \/
            (ax (self s) = PyNone /\ exists r, ax (self (m s).2) = PyAxes r).

(** A computation that, when it returns, returns what [self.ax] holds. *)
Definition returns_ax (m : M State PyVal) : Prop :=
  forall s v s', m s = (Return v, s') -> v = ax (self s').

(** *** The calls a client can make on a visualizer *)

Inductive Call :=
| call_fit (x : X) (y : list num)
| call_score (x : X) (y : list num) (train : bool)
| call_draw (a b : list num) (train : bool)
| call_poof.

(** [PredictionError] inherits [fit]; its [score] and [draw] take no
    [train] flag. *)
Definition PredictionError_call (c : Call) : M State PyVal :=
  match c with
  | call_fit x y => ScoreVisualizer_fit x y ;;; ret PyNone
  | call_score x y _ => PredictionError_score x y
  | call_draw y y_pred _ => PredictionError_draw y y_pred
  | call_poof => PredictionError_poof
  end.

Definition ResidualsPlot_call (c : Call) : M State PyVal :=
  match c with
  | call_fit x y => ResidualsPlot_fit x y
  | call_score x y train => ResidualsPlot_score x y train
  | call_draw y_pred residuals train => ResidualsPlot_draw y_pred residuals train
  | call_poof => ResidualsPlot_poof
  end.

(** A lifetime: the client makes one call after the other, whether or not
    a call raised.  The history lists [self.ax] after each call. *)
Fixpoint ax_history (method : Call -> M State PyVal) (cs : list Call)
    (s : State) : list PyVal :=
  match cs with
  | [] => []
  | c :: cs' => let s' := (method c s).2 in
                ax (self s') :: ax_history method cs' s'
  end.

(** How often [self.ax] changes along a history that starts at [a]. *)
Fixpoint changes (a : PyVal) (h : list PyVal) : nat :=
  match h with
  | [] => 0
  | b :: h' => (if decide (a = b) then 0 else 1) + changes b h'
  end%nat.
End Visualizers.
Arguments Visualizer : clear implicits.
Arguments State : clear implicits.
Arguments Call : clear implicits.

(** ** Lifetimes, frames and what a colour entry can influence *)

Section Lifetimes.
Context {Model X num : Type} {scalar : Scalar num}
  {est : Estimator Model X num}.

(** The state after a sequence of calls, made one after the other whether
    or not one raised, and what each call returned or raised. *)
Fixpoint run_calls (method : Call X num -> M (State Model num) PyVal)
    (cs : list (Call X num)) (s : State Model num) : State Model num :=
  match cs with
  | [] => s
  | c :: cs' => run_calls method cs' (method c s).2
  end.

Fixpoint call_results (method : Call X num -> M (State Model num) PyVal)
    (cs : list (Call X num)) (s : State Model num) : list (Result PyVal) :=
  match cs with
  | [] => []
  | c :: cs' => (method c s).1 :: call_results method cs' (method c s).2
  end.

(** What [plt.gca()] leaves behind for a visualizer that draws on Axes [r],
    which showed [log]: pyplot as it was when the visualizer held [r]
    already, and [r] current when it held [None]. *)
Definition acquired (s : State Model num) (r : Ref)
    (log : list (AxesCall num)) (p1 : Pyplot num) : Prop :=
  axes p1 !! r = Some log /\
  shown p1 = shown (plt s) /\
  (ax (self s) = PyAxes r -> p1 = plt s) /\
  (ax (self s) = PyNone -> current p1 = Some r) /\
  (forall r', r' <> r -> axes p1 !! r' = axes (plt s) !! r').

(** What a call leaves alone: the name and the colours always, the
    estimator and the number of shows according to the flags. *)
Definition frame (keep_estimator keep_shown : bool)
    (s s' : State Model num) : Prop :=
  name (self s') = name (self s) /\
  colors (self s') = colors (self s) /\
  (keep_estimator = true -> estimator (self s') = estimator (self s)) /\
  (keep_shown = true -> shown (plt s') = shown (plt s)).

Definition within {A} (R : State Model num -> State Model num -> Prop)
    (m : M (State Model num) A) : Prop :=
  forall s, R s (m s).2.

(** A computation that shows the figure at most once. *)
Definition shows_at_most_once {A} (m : M (State Model num) A) : Prop :=
  forall s, shown (plt (m s).2) = shown (plt s) \/
            shown (plt (m s).2) = S (shown (plt s)).

(** Two states that differ at most in the colour stored under [k]. *)
Definition same_but (k : string) (s1 s2 : State Model num) : Prop :=
  estimator (self s1) = estimator (self s2) /\
  name (self s1) = name (self s2) /\
  ax (self s1) = ax (self s2) /\
  plt s1 = plt s2 /\
  (forall k', k' <> k -> colors (self s1) !! k' = colors (self s2) !! k').

(** A computation on which the colour stored under [k] has no influence:
    from two such states it gives the same result and two such states. *)
Definition ignores {A} (k : string) (m : M (State Model num) A) : Prop :=
  forall s1 s2, same_but k s1 s2 ->
                (m s1).1 = (m s2).1 /\ same_but k (m s1).2 (m s2).2.

(** The calls [draw(y, y_pred)] for a list of pairs of series. *)
Definition draw_calls (ps : list (list num * list num)) : list (Call X num) :=
  map (fun p => call_draw p.1 p.2 false) ps.
End Lifetimes.

(** ** [PredictionError.draw], whatever the best-fit helper does *)

Section BestFit.
Context {Model num : Type} {scalar : Scalar num}.

(** [draw_best_fit] lives in [yellowbrick/bestfit.py], which is not among
    the sources: here it is any function of the arguments that
    [PredictionError.draw] hands it, acting on pyplot. *)
Variable best_fit :
  list num -> list num -> PyVal -> string -> string -> Z -> PyVal ->
  M (Pyplot num) unit.

(** [PredictionError.draw], statement by statement, calling [best_fit]
    where the source calls [draw_best_fit]. *)
Definition PredictionError_draw_with (y y_pred : list num)
  : M (State Model num) PyVal :=
  (a <- self_ax ;;
   if is_None a
   then r <- in_plt plt_gca ;; assign_self_ax (PyAxes r)
   else ret tt) ;;;
  (a <- self_ax ;;
   r <- axes_method a "scatter" ;;
   in_plt (Axes_scatter r y y_pred (PyStr "#F2BE2C") None None)) ;;;
  (a <- self_ax ;;
   line <- self_colors "line" ;;
   in_plt (best_fit y y_pred a "linear" "--" 2 line)) ;;;
  (a <- self_ax ;;
   r <- axes_method a "set_xlim" ;;
   lo <- series_min y ;;
   hi <- series_max y ;;
   in_plt (Axes_set_xlim r (num_sub lo num_one) (num_add hi num_one))) ;;;
  (a <- self_ax ;;
   r <- axes_method a "set_ylim" ;;
   lo <- series_min y_pred ;;
   hi <- series_max y_pred ;;
   in_plt (Axes_set_ylim r (num_sub lo num_one) (num_add hi num_one))) ;;;
  self_ax.
End BestFit.

(** The message of the error that the capability gate raises. *)
Definition not_a_regressor : string :=
  "This estimator is not a regressor; try a classifier or clustering score visualizer instead!".

(** ** A concrete estimator

    [Shift] predicts [x + offset] for every row [x]; training sets the
    offset to the difference of the first target and the first row, and
    refuses an empty training set.  [regressor] is its capability tag. *)

Record Shift := { regressor : bool; offset : Z }.

#[global] Instance Shift_Estimator : Estimator Shift (list Z) Z := {|
  isregressor m := regressor m;
  get_model_name _ := "Shift";
  est_fit m x y :=
    match x, y with
    | a :: _, b :: _ => Return {| regressor := regressor m; offset := b - a |}
    | _, _ => Raise (EstimatorError "Found array with 0 sample(s)")
    end;
  est_predict m x := Return (map (Z.add (offset m)) x)
|}.

(** pyplot before any figure exists. *)
Definition no_figure {num} : Pyplot num :=
  {| axes := ∅; current := None; shown := 0 |}.

(** Two estimators: a regressor and an object without that capability. *)
Definition shift : Shift := {| regressor := true; offset := 1 |}.
Definition no_regressor : Shift := {| regressor := false; offset := 0 |}.

(** A [PredictionError] and a [ResidualsPlot] around [shift], as their
    constructors leave them when no option is given, before any figure
    exists. *)
Definition prediction_error_0 : State Shift Z :=
  {| self := {| estimator := shift; name := "Shift"; ax := PyNone;
                colors := <["point" := PyStr "#F2BE2C"]>
                            (<["line" := PyStr "#2B94E9"]> ∅) |};
     plt := no_figure |}.

Definition residuals_plot_0 : State Shift Z :=
  {| self := {| estimator := shift; name := "Shift"; ax := PyNone;
                colors := <["train_point" := PyStr "#2B94E9"]>
                            (<["test_point" := PyStr "#94BA65"]>
                               (<["line" := PyStr "#333333"]> ∅)) |};
     plt := no_figure |}.

(** A [ResidualsPlot] built with [train_point_color='#FF0000']. *)
Definition red_train : gmap string PyVal :=
  {["train_point_color" := PyStr "#FF0000"]}.

Definition residuals_plot_red : State Shift Z :=
  {| self := {| estimator := shift; name := "Shift"; ax := PyNone;
                colors := <["train_point" := PyStr "#FF0000"]>
                            (<["test_point" := PyStr "#94BA65"]>
                               (<["line" := PyStr "#333333"]> ∅)) |};
     plt := no_figure |}.

(** The [ResidualsPlot] after [score([1, 2], [1, 4])]. *)
Definition residuals_plot_1 : State Shift Z :=
  (ResidualsPlot_score [1; 2] [1; 4] false residuals_plot_0).2.

(** The [PredictionError] after [draw([1, 2, 3], [2, 2, 4])]. *)
Definition prediction_error_1 : State Shift Z :=
  (PredictionError_draw [1; 2; 3] [2; 2; 4] prediction_error_0).2.

(** A [PredictionError] built with [line_color='#000000']. *)
Definition black_line : gmap string PyVal :=
  {["line_color" := PyStr "#000000"]}.

Definition prediction_error_black : State Shift Z :=
  {| self := {| estimator := shift; name := "Shift"; ax := PyNone;
                colors := <["point" := PyStr "#F2BE2C"]>
                            (<["line" := PyStr "#000000"]> ∅) |};
     plt := no_figure |}.

(** An estimator that trains on anything and cannot predict. *)
Inductive Mute := mute.

#[global] Instance Mute_Estimator : Estimator Mute (list Z) Z := {|
  isregressor _ := true;
  get_model_name _ := "Mute";
  est_fit _ _ _ := Return mute;
  est_predict _ _ := Raise (EstimatorError "predict is not available")
|}.

Definition residuals_plot_mute : State Mute Z :=
  {| self := {| estimator := mute; name := "Mute"; ax := PyNone;
                colors := <["train_point" := PyStr "#2B94E9"]>
                            (<["test_point" := PyStr "#94BA65"]>
                               (<["line" := PyStr "#333333"]> ∅)) |};
     plt := no_figure |}.

(** pyplot with two figures: Axes 0 and Axes 1, both empty, the second one
    current. *)
Definition two_figures : Pyplot Z :=
  {| axes := <[0%nat := []]> (<[1%nat := []]> ∅);
     current := Some 1%nat;
     shown := 0 |}.

(** The options [ax=<Axes 0>]. *)
Definition on_axes_0 : gmap string PyVal := {["ax" := PyAxes 0%nat]}.

(** A best-fit helper that refuses empty series and otherwise draws the
    line. *)
Definition strict_best_fit (x y : list Z) (a : PyVal) (kind ls : string)
    (lw : Z) (c : PyVal) : M (Pyplot Z) unit :=
  match x with
  | [] => raise (ValueError "Found array with 0 sample(s)")
  | _ :: _ => draw_best_fit x y a kind ls lw c
  end.

(** ** Properties *)

Section Properties.
Context {Model X num : Type} {scalar : Scalar num}
  {est : Estimator Model X num}.

(** C1. A model that [isregressor] rejects makes the constructor of
    [RegressionScoreVisualizer], [PredictionError] and [ResidualsPlot]
    raise [YellowbrickTypeError] whatever the constructor above it would
    do (it is not reached) and with pyplot left as it was.  For a model
    that [isregressor] accepts the gate hands over to the constructor above
    it, and with the base constructor construction succeeds: the model is
    wrapped, under its name, and pyplot is left as it was. *)
Theorem regressor_gate (model : Model) (kwargs : gmap string PyVal)
    (p : Pyplot num) :
  (isregressor model = false ->
   forall super_init,
     RegressionScoreVisualizer_init super_init model kwargs p
       = (Raise (YellowbrickTypeError not_a_regressor), p) /\
     PredictionError_init super_init model kwargs p
       = (Raise (YellowbrickTypeError not_a_regressor), p) /\
     ResidualsPlot_init super_init model kwargs p
       = (Raise (YellowbrickTypeError not_a_regressor), p)) /\
  (isregressor model = true ->
   (forall super_init,
       RegressionScoreVisualizer_init super_init model kwargs p
       = super_init model kwargs p) /\
   exists v1 v2 v3 : Visualizer Model,
     RegressionScoreVisualizer_init ScoreVisualizer_init model kwargs p
       = (Return v1, p) /\
     PredictionError_init ScoreVisualizer_init model kwargs p
       = (Return v2, p) /\
     ResidualsPlot_init ScoreVisualizer_init model kwargs p
       = (Return v3, p) /\
     Forall (fun v => estimator v = model /\
                      name v = get_model_name model /\
                      ax v = dict_get kwargs "ax") [v1; v2; v3]).
Proof.
  split; intros Hreg.
  - intros super_init.
    unfold PredictionError_init, ResidualsPlot_init, bind,
      RegressionScoreVisualizer_init.
    rewrite Hreg. simpl. auto.
  - split.
    { intros super_init. unfold RegressionScoreVisualizer_init.
      rewrite Hreg. reflexivity. }
    unfold PredictionError_init, ResidualsPlot_init, bind,
      RegressionScoreVisualizer_init, ScoreVisualizer_init.
    rewrite Hreg. simpl.
    do 3 eexists. repeat split; try reflexivity.
    repeat constructor.
Qed.

(** *** Running the methods *)

Lemma ResidualsPlot_poof_None (s : State Model num) :
  ax (self s) = PyNone -> ResidualsPlot_poof s = (Return PyNone, s).
Proof.
  intros Hax. unfold ResidualsPlot_poof, bind, self_ax. rewrite Hax.
  reflexivity.
Qed.

Lemma PredictionError_poof_None (s : State Model num) :
  ax (self s) = PyNone ->
  PredictionError_poof s
    = (Raise (AttributeError "'NoneType' object has no attribute 'set_title'"), s).
Proof.
  intros Hax. unfold PredictionError_poof, bind, self_ax. rewrite Hax.
  reflexivity.
Qed.

(** C7. [ResidualsPlot.poof] on a visualizer whose [self.ax] is still
    [None] returns normally (with [None]) and changes nothing: the
    visualizer and every Axes are as before, and nothing was shown. *)
Theorem ResidualsPlot_poof_before_draw (s : State Model num) :
  ax (self s) = PyNone ->
  exists s', ResidualsPlot_poof s = (Return PyNone, s') /\
             self s' = self s /\
             axes (plt s') = axes (plt s) /\
             current (plt s') = current (plt s) /\
             shown (plt s') = shown (plt s).
Proof.
  intros Hax. exists s. rewrite ResidualsPlot_poof_None by assumption.
  repeat split.
Qed.

(** C10. [PredictionError.poof] on a visualizer whose [self.ax] is
    still [None] raises at its first statement, the [set_title] call on
    [None], having changed nothing; [ResidualsPlot.poof] in the same
    state returns normally. *)
Theorem PredictionError_poof_before_draw (s : State Model num) :
  ax (self s) = PyNone ->
  PredictionError_poof s
    = (Raise (AttributeError "'NoneType' object has no attribute 'set_title'"), s) /\
  ResidualsPlot_poof s = (Return PyNone, s).
Proof.
  intros Hax. split.
  - apply PredictionError_poof_None; assumption.
  - apply ResidualsPlot_poof_None; assumption.
Qed.

Lemma bind_Return {S A B} (m : M S A) (k : A -> M S B) s a s' :
  m s = (Return a, s') -> bind m k s = k a s'.
Proof. intros E. unfold bind. rewrite E. reflexivity. Qed.

Lemma bind_Raise {S A B} (m : M S A) (k : A -> M S B) s e s' :
  m s = (Raise e, s') -> bind m k s = (Raise e, s').
Proof. intros E. unfold bind. rewrite E. reflexivity. Qed.

(** [if self.ax is None: self.ax = plt.gca()], the first statement of both
    [draw] methods. *)
Lemma acquire_surface (s : State Model num) r log :
  drawing_surface s = Some (r, log) ->
  exists p1,
    (a <- self_ax ;;
     if is_None a
     then r <- in_plt plt_gca ;; assign_self_ax (PyAxes r)
     else ret tt) s
    = (Return tt, {| self := set_ax (self s) (PyAxes r); plt := p1 |}) /\
    axes p1 !! r = Some log /\
    shown p1 = shown (plt s) /\
    (ax (self s) = PyAxes r -> p1 = plt s) /\
    (forall r', r' <> r -> axes p1 !! r' = axes (plt s) !! r').
Proof.
  destruct s as [[m n a cs] [axs cur sh]].
  unfold drawing_surface, bind, self_ax. simpl.
  destruct a as [| |r0]; simpl; [|discriminate|].
  - unfold in_plt, plt_gca, assign_self_ax, set_ax. simpl.
    destruct cur as [rc|]; simpl.
    + destruct (axs !! rc) as [l|] eqn:E; simpl; [|discriminate].
      intros [= <- <-]. eexists. split; [reflexivity|]. simpl.
      repeat split; try assumption; discriminate.
    + intros [= <- <-]. eexists. split; [reflexivity|]. simpl.
      split; [apply lookup_insert_eq|].
      repeat split; try discriminate.
      intros r' Hr'. apply lookup_insert_ne. congruence.
  - destruct (axs !! r0) as [l|] eqn:E; simpl; [|discriminate].
    intros [= <- <-]. eexists. split; [reflexivity|]. simpl.
    repeat split; assumption.
Qed.

(** *** Statements on an acquired surface *)

Lemma draw_on_draw_on (s : State Model num) r l1 l2 :
  draw_on (draw_on s r l1) r l2 = draw_on s r l2.
Proof.
  unfold draw_on, set_axes. simpl. rewrite insert_insert_eq. reflexivity.
Qed.

Lemma draw_on_lookup (s : State Model num) r l :
  axes (plt (draw_on s r l)) !! r = Some l.
Proof. simpl. apply lookup_insert_eq. Qed.

Section OnSurface.
Variables (s : State Model num) (r : Ref) (log : list (AxesCall num)).
Hypothesis Hax : ax (self s) = PyAxes r.
Hypothesis Hlog : axes (plt s) !! r = Some log.

Lemma run_axes_call (attr : string) (c : AxesCall num) :
  (a <- self_ax ;; r <- axes_method a attr ;; in_plt (axes_call r c)) s
  = (Return tt, draw_on s r (log ++ [c])).
Proof.
  unfold bind, self_ax. rewrite Hax. simpl.
  unfold in_plt, axes_call. rewrite Hlog. reflexivity.
Qed.

Lemma run_scatter (x y : list num) c sz alpha :
  length x = length y ->
  (a <- self_ax ;; r <- axes_method a "scatter" ;;
   in_plt (Axes_scatter r x y c sz alpha)) s
  = (Return tt, draw_on s r (log ++ [scatter_call x y c sz alpha])).
Proof.
  intros Hlen. unfold bind, self_ax. rewrite Hax. simpl.
  unfold Axes_scatter. rewrite decide_True by assumption.
  unfold in_plt, axes_call. rewrite Hlog. reflexivity.
Qed.

Lemma run_scatter_mismatch (x y : list num) c sz alpha :
  length x <> length y ->
  (a <- self_ax ;; r <- axes_method a "scatter" ;;
   in_plt (Axes_scatter r x y c sz alpha)) s
  = (Raise (ValueError "x and y must be the same size"), s).
Proof.
  intros Hlen. unfold bind, self_ax. rewrite Hax. simpl.
  unfold Axes_scatter. rewrite decide_False by assumption.
  unfold in_plt, raise. destruct s; reflexivity.
Qed.

Lemma run_draw_best_fit (x y : list num) line :
  length x = length y ->
  colors (self s) !! "line" = Some line ->
  (a <- self_ax ;; line <- self_colors "line" ;;
   in_plt (draw_best_fit x y a "linear" "--" 2 line)) s
  = (Return tt,
     draw_on s r (log ++ [best_fit_line x y "linear" "--" 2 line])).
Proof.
  intros Hlen Hline. unfold bind, self_ax, self_colors, dict_getitem.
  rewrite Hline, Hax. simpl.
  unfold draw_best_fit. rewrite decide_True by assumption.
  unfold in_plt, bind, axes_call. simpl. rewrite Hlog. reflexivity.
Qed.

Lemma run_set_xlim (y : list num) lo hi :
  min_of y = Some lo -> max_of y = Some hi ->
  (a <- self_ax ;; r <- axes_method a "set_xlim" ;;
   lo <- series_min y ;; hi <- series_max y ;;
   in_plt (Axes_set_xlim r (num_sub lo num_one) (num_add hi num_one))) s
  = (Return tt,
     draw_on s r (log ++ [set_xlim_call (num_sub lo num_one)
                                        (num_add hi num_one)])).
Proof.
  intros Hlo Hhi. unfold bind, self_ax, series_min, series_max.
  rewrite Hax, Hlo, Hhi. simpl.
  unfold in_plt, Axes_set_xlim, axes_call. rewrite Hlog. reflexivity.
Qed.

Lemma run_set_ylim (y : list num) lo hi :
  min_of y = Some lo -> max_of y = Some hi ->
  (a <- self_ax ;; r <- axes_method a "set_ylim" ;;
   lo <- series_min y ;; hi <- series_max y ;;
   in_plt (Axes_set_ylim r (num_sub lo num_one) (num_add hi num_one))) s
  = (Return tt,
     draw_on s r (log ++ [set_ylim_call (num_sub lo num_one)
                                        (num_add hi num_one)])).
Proof.
  intros Hlo Hhi. unfold bind, self_ax, series_min, series_max.
  rewrite Hax, Hlo, Hhi. simpl.
  unfold in_plt, Axes_set_ylim, axes_call. rewrite Hlog. reflexivity.
Qed.

Lemma run_set_title (f : string -> string) :
  (a <- self_ax ;; r <- axes_method a "set_title" ;; n <- self_name ;;
   in_plt (Axes_set_title r (f n))) s
  = (Return tt, draw_on s r (log ++ [set_title_call (f (name (self s)))])).
Proof.
  unfold bind, self_ax, self_name. rewrite Hax. simpl.
  unfold in_plt, Axes_set_title, axes_call. rewrite Hlog. reflexivity.
Qed.
End OnSurface.

(** *** The two [draw] methods, run on the surface they land on *)

Lemma ResidualsPlot_draw_run (s : State Model num) (r : Ref)
    (log : list (AxesCall num)) (y_pred res : list num) (train : bool)
    (c : PyVal) :
  drawing_surface s = Some (r, log) ->
  colors (self s) !! (if train then "train_point" else "test_point") = Some c ->
  length y_pred = length res ->
  exists p',
    ResidualsPlot_draw y_pred res train s
    = (Return (PyAxes r),
       {| self := set_ax (self s) (PyAxes r); plt := p' |}) /\
    axes p' !! r
    = Some (log ++ [scatter_call y_pred res c (Some 40)
                      (Some (if train then Qmake 1 2 else Qmake 1 1))]) /\
    shown p' = shown (plt s) /\
    (forall r', r' <> r -> axes p' !! r' = axes (plt s) !! r').
Proof.
  intros Hs Hc Hlen.
  destruct (acquire_surface s r log Hs) as (p1 & Hacq & Hlog & Hsh & _ & Hother).
  unfold ResidualsPlot_draw. rewrite (bind_Return _ _ _ _ _ Hacq).
  set (s1 := {| self := set_ax (self s) (PyAxes r); plt := p1 |}).
  assert (Hcol : (if train then self_colors "train_point"
                  else self_colors "test_point") s1 = (Return c, s1)).
  { destruct train; unfold self_colors, dict_getitem; simpl; rewrite Hc;
      reflexivity. }
  rewrite (bind_Return _ _ _ _ _ Hcol).
  cbv zeta.
  rewrite (bind_Return _ _ _ _ _
             (run_scatter s1 r log eq_refl Hlog y_pred res c _ _ Hlen)).
  eexists. split; [reflexivity|]. simpl.
  split; [apply lookup_insert_eq|]. split; [assumption|].
  intros r' Hr'. rewrite lookup_insert_ne by congruence. auto.
Qed.

Lemma PredictionError_draw_run (s : State Model num) (r : Ref)
    (log : list (AxesCall num)) (y y_pred : list num) (line : PyVal)
    (lo hi lo' hi' : num) :
  drawing_surface s = Some (r, log) ->
  colors (self s) !! "line" = Some line ->
  length y = length y_pred ->
  min_of y = Some lo -> max_of y = Some hi ->
  min_of y_pred = Some lo' -> max_of y_pred = Some hi' ->
  exists p',
    PredictionError_draw y y_pred s
    = (Return (PyAxes r),
       {| self := set_ax (self s) (PyAxes r); plt := p' |}) /\
    axes p' !! r
    = Some (log ++ [scatter_call y y_pred (PyStr "#F2BE2C") None None;
                    best_fit_line y y_pred "linear" "--" 2 line;
                    set_xlim_call (num_sub lo num_one) (num_add hi num_one);
                    set_ylim_call (num_sub lo' num_one) (num_add hi' num_one)]) /\
    shown p' = shown (plt s) /\
    (forall r', r' <> r -> axes p' !! r' = axes (plt s) !! r').
Proof.
  intros Hs Hline Hlen Hlo Hhi Hlo' Hhi'.
  destruct (acquire_surface s r log Hs) as (p1 & Hacq & Hlog & Hsh & _ & Hother).
  unfold PredictionError_draw. rewrite (bind_Return _ _ _ _ _ Hacq).
  set (s1 := {| self := set_ax (self s) (PyAxes r); plt := p1 |}).
  rewrite (bind_Return _ _ _ _ _
             (run_scatter s1 r log eq_refl Hlog y y_pred _ _ _ Hlen)).
  rewrite (bind_Return _ _ _ _ _
             (run_draw_best_fit (draw_on s1 r _) r _ eq_refl
                (draw_on_lookup _ _ _) y y_pred line Hlen Hline)).
  rewrite draw_on_draw_on.
  rewrite (bind_Return _ _ _ _ _
             (run_set_xlim (draw_on s1 r _) r _ eq_refl
                (draw_on_lookup _ _ _) y lo hi Hlo Hhi)).
  rewrite draw_on_draw_on.
  rewrite (bind_Return _ _ _ _ _
             (run_set_ylim (draw_on s1 r _) r _ eq_refl
                (draw_on_lookup _ _ _) y_pred lo' hi' Hlo' Hhi')).
  rewrite draw_on_draw_on.
  eexists. split; [reflexivity|]. simpl.
  split; [rewrite lookup_insert_eq; repeat rewrite <- app_assoc; reflexivity|].
  split; [assumption|].
  intros r' Hr'. rewrite lookup_insert_ne by congruence. auto.
Qed.

(** X14. [PredictionError.draw] on series of different lengths raises the
    [ValueError] of [scatter]; by then [self.ax] holds the surface, which
    shows nothing new. *)
Lemma PredictionError_draw_mismatch (s : State Model num) (r : Ref)
    (log : list (AxesCall num)) (y y_pred : list num) :
  drawing_surface s = Some (r, log) ->
  length y <> length y_pred ->
  exists p',
    PredictionError_draw y y_pred s
    = (Raise (ValueError "x and y must be the same size"),
       {| self := set_ax (self s) (PyAxes r); plt := p' |}) /\
    axes p' !! r = Some log.
Proof.
  intros Hs Hlen.
  destruct (acquire_surface s r log Hs) as (p1 & Hacq & Hlog & _).
  unfold PredictionError_draw. rewrite (bind_Return _ _ _ _ _ Hacq).
  set (s1 := {| self := set_ax (self s) (PyAxes r); plt := p1 |}).
  rewrite (bind_Raise _ _ _ _ _
             (run_scatter_mismatch s1 r log eq_refl Hlog y y_pred _ _ _ Hlen)).
  exists p1. split; [reflexivity|assumption].
Qed.

(** X15. [ResidualsPlot.draw] on series of different lengths raises the
    [ValueError] of [scatter]; by then [self.ax] holds the surface, which
    shows nothing new. *)
Lemma ResidualsPlot_draw_mismatch (s : State Model num) (r : Ref)
    (log : list (AxesCall num)) (y_pred residuals : list num) (train : bool)
    (c : PyVal) :
  drawing_surface s = Some (r, log) ->
  colors (self s) !! (if train then "train_point" else "test_point") = Some c ->
  length y_pred <> length residuals ->
  exists p',
    ResidualsPlot_draw y_pred residuals train s
    = (Raise (ValueError "x and y must be the same size"),
       {| self := set_ax (self s) (PyAxes r); plt := p' |}) /\
    axes p' !! r = Some log.
Proof.
  intros Hs Hc Hlen.
  destruct (acquire_surface s r log Hs) as (p1 & Hacq & Hlog & _).
  unfold ResidualsPlot_draw. rewrite (bind_Return _ _ _ _ _ Hacq).
  set (s1 := {| self := set_ax (self s) (PyAxes r); plt := p1 |}).
  assert (Hcol : (if train then self_colors "train_point"
                  else self_colors "test_point") s1 = (Return c, s1)).
  { destruct train; unfold self_colors, dict_getitem; simpl; rewrite Hc;
      reflexivity. }
  rewrite (bind_Return _ _ _ _ _ Hcol). cbv zeta.
  rewrite (bind_Raise _ _ _ _ _
             (run_scatter_mismatch s1 r log eq_refl Hlog y_pred residuals _ _ _ Hlen)).
  exists p1. split; [reflexivity|assumption].
Qed.

Lemma nonempty_min_max (y : list num) :
  (1 <= length y)%nat ->
  exists lo hi, min_of y = Some lo /\ max_of y = Some hi.
Proof.
  destruct y as [|a t]; simpl; [lia|]. intros _.
  do 2 eexists. split; reflexivity.
Qed.

Lemma last_set_app {A} (f : AxesCall num -> option A) log c a :
  f c = Some a -> last_set f (log ++ [c]) = Some a.
Proof.
  intros Hf. unfold last_set. rewrite fold_left_app. simpl.
  rewrite Hf. reflexivity.
Qed.

Lemma last_set_skip {A} (f : AxesCall num -> option A) log c :
  f c = None -> last_set f (log ++ [c]) = last_set f log.
Proof.
  intros Hf. unfold last_set. rewrite fold_left_app. simpl.
  rewrite Hf. reflexivity.
Qed.

(** C3. One [PredictionError.draw(y, y_pred)] on series of the same
    length [n >= 1] returns the surface, on which it has added [n] scatter
    marks and one best-fit line and set the x limits to
    [(min(y) - 1, max(y) + 1)] and the y limits to
    [(min(y_pred) - 1, max(y_pred) + 1)]. *)
Theorem PredictionError_draw_marks (s : State Model num) (r : Ref)
    (log : list (AxesCall num)) (y y_pred : list num) (n : nat)
    (line : PyVal) :
  (1 <= n)%nat ->
  length y = n ->
  length y_pred = n ->
  drawing_surface s = Some (r, log) ->
  colors (self s) !! "line" = Some line ->
  exists s' log' lo hi lo' hi',
    PredictionError_draw y y_pred s = (Return (PyAxes r), s') /\
    ax (self s') = PyAxes r /\
    axes (plt s') !! r = Some log' /\
    scatter_marks log' = (scatter_marks log + n)%nat /\
    best_fit_lines log' = (best_fit_lines log + 1)%nat /\
    min_of y = Some lo /\ max_of y = Some hi /\
    min_of y_pred = Some lo' /\ max_of y_pred = Some hi' /\
    last_set xlim_of log' = Some (num_sub lo num_one, num_add hi num_one) /\
    last_set ylim_of log' = Some (num_sub lo' num_one, num_add hi' num_one).
Proof.
  intros Hn Hy Hyp Hs Hline.
  destruct (nonempty_min_max y) as (lo & hi & Hlo & Hhi); [lia|].
  destruct (nonempty_min_max y_pred) as (lo' & hi' & Hlo' & Hhi'); [lia|].
  destruct (PredictionError_draw_run s r log y y_pred line lo hi lo' hi'
              Hs Hline ltac:(congruence) Hlo Hhi Hlo' Hhi')
    as (p' & Hrun & Hlog' & _).
  eexists _, _, lo, hi, lo', hi'.
  split; [exact Hrun|]. split; [reflexivity|]. split; [exact Hlog'|].
  split; [|split].
  - unfold scatter_marks. rewrite sum_list_with_app. simpl. lia.
  - unfold best_fit_lines. rewrite sum_list_with_app. simpl. lia.
  - repeat (split; [assumption|]). split.
    + change (log ++ [?a; ?b; ?c; ?d]) with (log ++ [a; b; c] ++ [d]).
      rewrite app_assoc, last_set_skip by reflexivity.
      change (log ++ [?a; ?b; ?c]) with (log ++ [a; b] ++ [c]).
      rewrite app_assoc. apply last_set_app. reflexivity.
    + change (log ++ [?a; ?b; ?c; ?d]) with (log ++ [a; b; c] ++ [d]).
      rewrite app_assoc. apply last_set_app. reflexivity.
Qed.

Lemma ResidualsPlot_init_colors (model : Model) (kwargs : gmap string PyVal)
    (p p' : Pyplot num) (v : Visualizer Model) :
  ResidualsPlot_init ScoreVisualizer_init model kwargs p = (Return v, p') ->
  colors v
  = <["train_point" := default (PyStr "#2B94E9") (kwargs !! "train_point_color")]>
      (<["test_point" := default (PyStr "#94BA65") (kwargs !! "test_point_color")]>
         (<["line" := default (PyStr "#333333") (kwargs !! "line_color")]> ∅)).
Proof.
  unfold ResidualsPlot_init, bind, RegressionScoreVisualizer_init,
    ScoreVisualizer_init.
  destruct (isregressor model); simpl; [|discriminate].
  intros [= <- _]. simpl.
  rewrite !lookup_delete_ne by discriminate.
  destruct (kwargs !! "train_point_color"), (kwargs !! "test_point_color"),
    (kwargs !! "line_color"); reflexivity.
Qed.

(** C6. On a [ResidualsPlot] (its colours as the constructor stored them
    from the options, with their defaults) and series of the same length,
    [draw] returns the surface, on which it has added one scatter of the
    points: in the [train_point] colour with opacity 0.5 when [train] is
    true, in the [test_point] colour with opacity 1.0 when it is false. *)
Theorem ResidualsPlot_draw_styling (model : Model)
    (kwargs : gmap string PyVal) (p0 p0' : Pyplot num)
    (v : Visualizer Model) (s : State Model num) (r : Ref)
    (log : list (AxesCall num)) (y_pred residuals : list num)
    (train : bool) :
  ResidualsPlot_init ScoreVisualizer_init model kwargs p0 = (Return v, p0') ->
  colors (self s) = colors v ->
  drawing_surface s = Some (r, log) ->
  length y_pred = length residuals ->
  exists s' color alpha,
    ResidualsPlot_draw y_pred residuals train s = (Return (PyAxes r), s') /\
    ax (self s') = PyAxes r /\
    axes (plt s') !! r
    = Some (log ++ [scatter_call y_pred residuals color (Some 40) (Some alpha)]) /\
    colors v !! (if train then "train_point" else "test_point") = Some color /\
    color = (if train
             then default (PyStr "#2B94E9") (kwargs !! "train_point_color")
             else default (PyStr "#94BA65") (kwargs !! "test_point_color")) /\
    alpha = (if train then Qmake 1 2 else Qmake 1 1).
Proof.
  intros Hinit Hcolors Hs Hlen.
  pose proof (ResidualsPlot_init_colors _ _ _ _ _ Hinit) as Hv.
  set (color := if train
                then default (PyStr "#2B94E9") (kwargs !! "train_point_color")
                else default (PyStr "#94BA65") (kwargs !! "test_point_color")).
  assert (Hc : colors v !! (if train then "train_point" else "test_point")
               = Some color).
  { rewrite Hv. subst color. destruct train.
    - apply lookup_insert_eq.
    - rewrite lookup_insert_ne by discriminate. apply lookup_insert_eq. }
  destruct (ResidualsPlot_draw_run s r log y_pred residuals train color
              Hs ltac:(rewrite Hcolors; exact Hc) Hlen)
    as (p' & Hrun & Hlog' & _).
  eexists _, color, _. split; [exact Hrun|]. split; [reflexivity|].
  split; [exact Hlog'|]. repeat split. exact Hc.
Qed.

Lemma series_sub_same_length {S} (a b : list num) (s : S) :
  length a = length b -> series_sub a b s = (Return (zip_sub a b), s).
Proof.
  intros Hlen. unfold series_sub. rewrite decide_True by assumption.
  reflexivity.
Qed.

Lemma zip_sub_length (a b : list num) :
  length a = length b -> length (zip_sub a b) = length a.
Proof.
  revert b. induction a as [|x a IH]; intros [|y b]; simpl; try lia.
  intros [= Hlen]. rewrite IH by assumption. reflexivity.
Qed.

(** C5. When [predict(X)] gives [y_pred], of the length of [y]:
    [ResidualsPlot.score] scatters the residuals [y_pred - y] (predicted
    minus actual, elementwise) against [y_pred], styled by [train], and
    returns [None]; [PredictionError.score] scatters [y_pred] against [y],
    adds the best-fit line and the limits, and returns the surface. *)
Theorem score_contracts (s : State Model num) (x : X)
    (y y_pred : list num) (r : Ref) (log : list (AxesCall num)) :
  est_predict (estimator (self s)) x = Return y_pred ->
  length y_pred = length y ->
  drawing_surface s = Some (r, log) ->
  (forall (train : bool) (c : PyVal),
      colors (self s) !! (if train then "train_point" else "test_point")
      = Some c ->
      exists s',
        ResidualsPlot_score x y train s = (Return PyNone, s') /\
        ResidualsPlot_score x y train s
        = (ResidualsPlot_draw y_pred (zip_sub y_pred y) train ;;; ret PyNone) s /\
        ax (self s') = PyAxes r /\
        axes (plt s') !! r
        = Some (log ++ [scatter_call y_pred (zip_sub y_pred y) c (Some 40)
                          (Some (if train then Qmake 1 2 else Qmake 1 1))])) /\
  (forall line : PyVal,
      colors (self s) !! "line" = Some line ->
      (1 <= length y)%nat ->
      exists s' lo hi lo' hi',
        PredictionError_score x y s = (Return (PyAxes r), s') /\
        PredictionError_score x y s = PredictionError_draw y y_pred s /\
        ax (self s') = PyAxes r /\
        min_of y = Some lo /\ max_of y = Some hi /\
        min_of y_pred = Some lo' /\ max_of y_pred = Some hi' /\
        axes (plt s') !! r
        = Some (log ++
                [scatter_call y y_pred (PyStr "#F2BE2C") None None;
                 best_fit_line y y_pred "linear" "--" 2 line;
                 set_xlim_call (num_sub lo num_one) (num_add hi num_one);
                 set_ylim_call (num_sub lo' num_one) (num_add hi' num_one)])).
Proof.
  intros Hpred Hlen Hs.
  assert (Hp : ScoreVisualizer_predict x s = (Return y_pred, s)).
  { unfold ScoreVisualizer_predict. rewrite Hpred. reflexivity. }
  split.
  - intros train c Hc.
    assert (Hunfold : ResidualsPlot_score x y train s
              = (ResidualsPlot_draw y_pred (zip_sub y_pred y) train ;;;
                 ret PyNone) s).
    { unfold ResidualsPlot_score.
      rewrite (bind_Return _ _ _ _ _ Hp).
      rewrite (bind_Return _ _ _ _ _ (series_sub_same_length _ _ _ Hlen)).
      reflexivity. }
    destruct (ResidualsPlot_draw_run s r log y_pred (zip_sub y_pred y)
                train c Hs Hc) as (p' & Hrun & Hlog' & _).
    { rewrite zip_sub_length; auto. }
    eexists. split; [|split; [exact Hunfold|]].
    + rewrite Hunfold. rewrite (bind_Return _ _ _ _ _ Hrun). reflexivity.
    + split; [reflexivity|exact Hlog'].
  - intros line Hline Hn.
    assert (Hunfold : PredictionError_score x y s
                      = PredictionError_draw y y_pred s).
    { unfold PredictionError_score.
      rewrite (bind_Return _ _ _ _ _ Hp). reflexivity. }
    destruct (nonempty_min_max y) as (lo & hi & Hlo & Hhi); [lia|].
    destruct (nonempty_min_max y_pred) as (lo' & hi' & Hlo' & Hhi'); [lia|].
    destruct (PredictionError_draw_run s r log y y_pred line lo hi lo' hi'
                Hs Hline ltac:(congruence) Hlo Hhi Hlo' Hhi')
      as (p' & Hrun & Hlog' & _).
    eexists _, lo, hi, lo', hi'.
    split; [rewrite Hunfold; exact Hrun|]. split; [exact Hunfold|].
    split; [reflexivity|]. repeat (split; [assumption|]). exact Hlog'.
Qed.

(** C8. [ResidualsPlot.fit(X, y)] first trains the estimator (the base
    [fit]) and then runs [score(X, y, train=True)] on the trained
    estimator: its predictions' residuals are on the surface, in the
    [train_point] colour with opacity 0.5. *)
Theorem ResidualsPlot_fit_draws_training (s : State Model num) (x : X)
    (y y_pred : list num) (m' : Model) (r : Ref)
    (log : list (AxesCall num)) (c : PyVal) :
  est_fit (estimator (self s)) x y = Return m' ->
  est_predict m' x = Return y_pred ->
  length y_pred = length y ->
  drawing_surface s = Some (r, log) ->
  colors (self s) !! "train_point" = Some c ->
  exists s1 s',
    ScoreVisualizer_fit x y s = (Return tt, s1) /\
    s1 = {| self := set_estimator (self s) m'; plt := plt s |} /\
    ResidualsPlot_score x y true s1 = (Return PyNone, s') /\
    ResidualsPlot_fit x y s = (Return PyNone, s') /\
    estimator (self s') = m' /\
    ax (self s') = PyAxes r /\
    axes (plt s') !! r
    = Some (log ++ [scatter_call y_pred (zip_sub y_pred y) c (Some 40)
                      (Some (Qmake 1 2))]).
Proof.
  intros Hfit Hpred Hlen Hs Hc.
  set (s1 := {| self := set_estimator (self s) m'; plt := plt s |}).
  assert (Hbase : ScoreVisualizer_fit x y s = (Return tt, s1)).
  { unfold ScoreVisualizer_fit. rewrite Hfit. reflexivity. }
  assert (Hp : ScoreVisualizer_predict x s1 = (Return y_pred, s1)).
  { unfold ScoreVisualizer_predict. simpl. rewrite Hpred. reflexivity. }
  destruct (ResidualsPlot_draw_run s1 r log y_pred (zip_sub y_pred y)
              true c Hs Hc) as (p' & Hrun & Hlog' & _).
  { rewrite zip_sub_length; auto. }
  assert (Hscore : ResidualsPlot_score x y true s1
                   = (Return PyNone,
                      {| self := set_ax (self s1) (PyAxes r); plt := p' |})).
  { unfold ResidualsPlot_score.
    rewrite (bind_Return _ _ _ _ _ Hp).
    rewrite (bind_Return _ _ _ _ _ (series_sub_same_length _ _ _ Hlen)).
    rewrite (bind_Return _ _ _ _ _ Hrun). reflexivity. }
  exists s1. eexists. split; [exact Hbase|]. split; [reflexivity|].
  split; [exact Hscore|]. split.
  - unfold ResidualsPlot_fit.
    rewrite (bind_Return _ _ _ _ _ Hbase).
    rewrite (bind_Return _ _ _ _ _ Hscore). reflexivity.
  - split; [reflexivity|]. split; [reflexivity|exact Hlog'].
Qed.

(** *** [poof] *)

Lemma plt_wf_draw_on (s : State Model num) r l :
  plt_wf (plt s) -> plt_wf (plt (draw_on s r l)).
Proof.
  unfold plt_wf. simpl. destruct (current (plt s)) as [rc|]; [|auto].
  intros Hrc. destruct (decide (r = rc)) as [->|Hne].
  - rewrite lookup_insert_eq. eauto.
  - rewrite lookup_insert_ne by assumption. assumption.
Qed.

(** [plt.xlabel] labels pyplot's current Axes, a new one if there is
    none; the Axes that exist already stay as they are up to that label. *)
Lemma run_plt_xlabel (s : State Model num) (label : string) :
  plt_wf (plt s) ->
  exists rc lc p1,
    plt_gca (plt s) = (Return rc, p1) /\
    axes p1 !! rc = Some lc /\
    current p1 = Some rc /\
    (forall c, current (plt s) = Some c -> rc = c) /\
    shown p1 = shown (plt s) /\
    (forall r, is_Some (axes (plt s) !! r) -> axes p1 !! r = axes (plt s) !! r) /\
    in_plt (plt_xlabel label) s
    = (Return tt,
       {| self := self s;
          plt := set_axes <[rc := lc ++ [set_xlabel_call label]]> p1 |}).
Proof.
  destruct s as [v [axs cur sh]]. unfold plt_wf, in_plt, plt_xlabel, bind,
    plt_gca, axes_call. simpl.
  destruct cur as [rc|].
  - intros [lc Hlc]. exists rc, lc. eexists. split; [reflexivity|]. simpl.
    rewrite Hlc. repeat split; auto. congruence.
  - intros _. eexists _, [], _. split; [reflexivity|]. simpl.
    rewrite lookup_insert_eq. repeat split; auto; try discriminate.
    intros r Hr. apply lookup_insert_ne. intros <-.
    apply elem_of_dom in Hr. exact (is_fresh (dom axs) Hr).
Qed.

(** X16. [ResidualsPlot.poof] on a visualizer that holds a surface draws
    on it the line [hlines(y=0, xmin=0, xmax=100)], whatever the surface
    shows, sets its title to "Residuals for <name> Model" and its y label
    to "Residuals", sets the x label "Predicted Value" (through pyplot: on
    the current Axes, which is the surface when [draw] acquired it from
    [plt.gca()] and it is still current), shows the figure, and returns
    the surface. *)
Theorem ResidualsPlot_poof_finalizes (s : State Model num) (r : Ref)
    (log : list (AxesCall num)) :
  ax (self s) = PyAxes r ->
  axes (plt s) !! r = Some log ->
  plt_wf (plt s) ->
  exists s' rc lc,
    ResidualsPlot_poof s = (Return (PyAxes r), s') /\
    self s' = self s /\
    shown (plt s') = S (shown (plt s)) /\
    axes (plt s') !! r
    = Some (log ++ [hlines_call 0 0 100;
                    set_title_call ("Residuals for " +:+ name (self s) +:+ " Model");
                    set_ylabel_call "Residuals"]
                ++ (if decide (rc = r)
                    then [set_xlabel_call "Predicted Value"] else [])) /\
    current (plt s') = Some rc /\
    (forall c, current (plt s) = Some c -> rc = c) /\
    axes (plt s') !! rc = Some lc /\
    last_set xlabel_of lc = Some "Predicted Value".
Proof.
  intros Hax Hlog Hwf.
  unfold ResidualsPlot_poof.
  rewrite (bind_Return self_ax _ s (PyAxes r) s)
    by (unfold self_ax; rewrite Hax; reflexivity).
  cbn [is_None].
  erewrite bind_Return
    by exact (run_axes_call s r log Hax Hlog "hlines" (hlines_call 0 0 100)).
  erewrite bind_Return
    by exact (run_set_title (draw_on s r _) r _ Hax (draw_on_lookup _ _ _)
                (fun n => "Residuals for " +:+ n +:+ " Model")).
  rewrite draw_on_draw_on.
  erewrite bind_Return
    by exact (run_axes_call (draw_on s r _) r _ Hax (draw_on_lookup _ _ _)
                "set_ylabel" (set_ylabel_call "Residuals")).
  rewrite draw_on_draw_on. repeat rewrite <- app_assoc. simpl app.
  set (log3 := log ++ [hlines_call 0 0 100; _; _]).
  destruct (run_plt_xlabel (draw_on s r log3) "Predicted Value"
              (plt_wf_draw_on s r log3 Hwf))
    as (rc & lc & p1 & Hgca & Hlc & Hcur & Hsame & Hsh & Hold & Hx).
  rewrite (bind_Return _ _ _ _ _ Hx).
  unfold bind, in_plt, plt_show, self_ax. simpl.
  assert (Hr : axes p1 !! r = Some log3).
  { rewrite Hold; rewrite draw_on_lookup; eauto. }
  eexists _, rc, (lc ++ [set_xlabel_call "Predicted Value"]).
  split; [rewrite Hax; reflexivity|]. simpl.
  split; [reflexivity|]. split; [rewrite Hsh; reflexivity|].
  split; [|split; [exact Hcur|split; [exact Hsame|split]]].
  - destruct (decide (rc = r)) as [->|Hne].
    + rewrite lookup_insert_eq. rewrite Hr in Hlc. injection Hlc as <-.
      subst log3. rewrite <- app_assoc. reflexivity.
    + rewrite lookup_insert_ne by assumption. rewrite Hr.
      reflexivity.
  - apply lookup_insert_eq.
  - apply last_set_app. reflexivity.
Qed.

(** *** The surface reference over a lifetime *)

Lemma acq_ret {A} (a : A) : acquires_once (Model:=Model) (num:=num) (ret a).
Proof. intros s. left. reflexivity. Qed.

Lemma acq_raise {A} e : acquires_once (Model:=Model) (num:=num) (A:=A) (raise e).
Proof. intros s. left. reflexivity. Qed.

Lemma acq_bind {A B} (m : M (State Model num) A) (k : A -> M (State Model num) B) :
  acquires_once m -> (forall a, acquires_once (k a)) ->
  acquires_once (bind m k).
Proof.
  intros Hm Hk s. specialize (Hm s). unfold bind.
  destruct (m s) as [[a|e] s1]; simpl in *; [|exact Hm].
  specialize (Hk a s1).
  destruct Hm as [Hm|[Hm [r Hr]]], Hk as [Hk|[Hk [r' Hr']]].
  - left. congruence.
  - right. split; [congruence|eauto].
  - right. split; [assumption|]. exists r. congruence.
  - congruence.
Qed.

Lemma acq_in_plt {A} (m : M (Pyplot num) A) :
  acquires_once (Model:=Model) (in_plt m).
Proof. intros s. left. unfold in_plt. destruct (m (plt s)). reflexivity. Qed.

Lemma acq_self_ax : acquires_once (Model:=Model) (num:=num) self_ax.
Proof. intros s. left. reflexivity. Qed.

Lemma acq_self_name : acquires_once (Model:=Model) (num:=num) self_name.
Proof. intros s. left. reflexivity. Qed.

Lemma acq_self_colors k : acquires_once (Model:=Model) (num:=num) (self_colors k).
Proof.
  intros s. left. unfold self_colors, dict_getitem.
  destruct (colors (self s) !! k); reflexivity.
Qed.

Lemma acq_axes_method a attr :
  acquires_once (Model:=Model) (num:=num) (axes_method a attr).
Proof. intros s. left. destruct a; reflexivity. Qed.

Lemma acq_series_min (y : list num) :
  acquires_once (Model:=Model) (num:=num) (series_min y).
Proof. intros s. left. unfold series_min. destruct (min_of y); reflexivity. Qed.

Lemma acq_series_max (y : list num) :
  acquires_once (Model:=Model) (num:=num) (series_max y).
Proof. intros s. left. unfold series_max. destruct (max_of y); reflexivity. Qed.

Lemma acq_series_sub (a b : list num) :
  acquires_once (Model:=Model) (num:=num) (series_sub a b).
Proof.
  intros s. left. unfold series_sub.
  destruct (decide (length a = length b)); [reflexivity|].
  destruct a as [|? [|? ?]], b as [|? [|? ?]]; reflexivity.
Qed.

Lemma acq_fit (x : X) (y : list num) : acquires_once (ScoreVisualizer_fit x y).
Proof.
  intros s. left. unfold ScoreVisualizer_fit.
  destruct (est_fit (estimator (self s)) x y); reflexivity.
Qed.

Lemma acq_predict (x : X) : acquires_once (ScoreVisualizer_predict x).
Proof. intros s. left. reflexivity. Qed.

Lemma acq_acquire :
  acquires_once (Model:=Model) (num:=num)
    (a <- self_ax ;;
     if is_None a
     then r <- in_plt plt_gca ;; assign_self_ax (PyAxes r)
     else ret tt).
Proof.
  intros s. unfold bind, self_ax, in_plt, assign_self_ax.
  destruct (ax (self s)) eqn:Hax; simpl; try (left; assumption).
  destruct (plt_gca (plt s)) as [[r|e] p1] eqn:Hgca; simpl.
  - right. split; [reflexivity|]. eauto.
  - left. assumption.
Qed.

Create HintDb acq.
Hint Resolve acq_ret acq_raise acq_in_plt acq_self_ax acq_self_name
  acq_self_colors acq_axes_method acq_series_min acq_series_max
  acq_series_sub acq_fit acq_predict acq_acquire : acq.

Ltac acq_tac :=
  cbv zeta;
  repeat first
    [ apply acq_acquire
    | apply acq_bind; [|intros]
    | match goal with
      | |- acquires_once (if ?b then _ else _) => destruct b
      end
    | solve [auto with acq] ].

Lemma acq_PredictionError_draw (y y_pred : list num) :
  acquires_once (Model:=Model) (PredictionError_draw y y_pred).
Proof. unfold PredictionError_draw. acq_tac. Qed.

Lemma acq_ResidualsPlot_draw (y_pred residuals : list num) (train : bool) :
  acquires_once (Model:=Model) (ResidualsPlot_draw y_pred residuals train).
Proof. unfold ResidualsPlot_draw. acq_tac. Qed.

Hint Resolve acq_PredictionError_draw acq_ResidualsPlot_draw : acq.

Lemma acq_PredictionError_call (c : Call X num) :
  acquires_once (PredictionError_call c).
Proof.
  destruct c; simpl;
    unfold PredictionError_score, PredictionError_poof; acq_tac.
Qed.

Lemma acq_ResidualsPlot_call (c : Call X num) :
  acquires_once (ResidualsPlot_call c).
Proof.
  destruct c; simpl;
    unfold ResidualsPlot_fit, ResidualsPlot_score, ResidualsPlot_poof;
    acq_tac.
Qed.

Lemma keeps_ax {A} (m : M (State Model num) A) (s : State Model num) :
  acquires_once m ->
  ax (self s) <> PyNone ->
  ax (self (m s).2) = ax (self s).
Proof. intros Hm Hax. destruct (Hm s) as [Heq|[Hnone _]]; congruence. Qed.

Lemma history_settled (method : Call X num -> M (State Model num) PyVal)
    (cs : list (Call X num)) (s : State Model num) :
  (forall c, acquires_once (method c)) ->
  ax (self s) <> PyNone ->
  changes (ax (self s)) (ax_history method cs s) = 0%nat.
Proof.
  intros Hm. revert s. induction cs as [|c cs IH]; intros s Hax; simpl.
  - reflexivity.
  - pose proof (keeps_ax (method c) s (Hm c) Hax) as Hkeep.
    rewrite decide_True by congruence.
    rewrite IH by congruence. reflexivity.
Qed.

Lemma history_changes_once (method : Call X num -> M (State Model num) PyVal)
    (cs : list (Call X num)) (s : State Model num) :
  (forall c, acquires_once (method c)) ->
  (changes (ax (self s)) (ax_history method cs s) <= 1)%nat.
Proof.
  intros Hm. revert s. induction cs as [|c cs IH]; intros s; simpl.
  - lia.
  - destruct (decide (ax (self s) = ax (self (method c s).2))) as [Heq|Hne].
    + simpl. apply IH.
    + destruct (Hm c s) as [Hsame|[_ [r Hr]]]; [congruence|].
      rewrite history_settled; [lia|assumption|congruence].
Qed.

Lemma acquire_from_None (s : State Model num) :
  ax (self s) = PyNone ->
  exists r p1,
    plt_gca (plt s) = (Return r, p1) /\
    (a <- self_ax ;;
     if is_None a
     then r <- in_plt plt_gca ;; assign_self_ax (PyAxes r)
     else ret tt) s
    = (Return tt, {| self := set_ax (self s) (PyAxes r); plt := p1 |}).
Proof.
  intros Hax. unfold bind, self_ax, in_plt, assign_self_ax.
  rewrite Hax. simpl. unfold plt_gca.
  destruct (current (plt s)); eexists _, _; split; reflexivity.
Qed.

Lemma returns_self_ax : returns_ax (Model:=Model) (num:=num) self_ax.
Proof. intros s v s' [= <- <-]. reflexivity. Qed.

Lemma returns_bind {A} (m : M (State Model num) A)
    (k : A -> M (State Model num) PyVal) :
  (forall a, returns_ax (k a)) -> returns_ax (bind m k).
Proof.
  intros Hk s v s'. unfold bind.
  destruct (m s) as [[a|e] s1]; [apply Hk|discriminate].
Qed.

Lemma returns_PredictionError_draw (y y_pred : list num) :
  returns_ax (Model:=Model) (PredictionError_draw y y_pred).
Proof.
  unfold PredictionError_draw.
  repeat (apply returns_bind; intros). apply returns_self_ax.
Qed.

Lemma returns_ResidualsPlot_draw (y_pred residuals : list num) (train : bool) :
  returns_ax (Model:=Model) (ResidualsPlot_draw y_pred residuals train).
Proof.
  unfold ResidualsPlot_draw.
  repeat (apply returns_bind; intros). apply returns_self_ax.
Qed.

(** C9. Over the lifetime of a [PredictionError] or a [ResidualsPlot]:
    no call changes a [self.ax] that is not [None]; a call that changes
    [self.ax] found it [None] and leaves an Axes in it; along any sequence
    of calls [self.ax] changes at most once; [draw] on a visualizer whose
    [self.ax] is [None] stores what [plt.gca()] answers, whether or not
    the rest of [draw] raises; and a [draw] that returns, returns what
    [self.ax] holds, which is what it held before unless that was [None]. *)
Theorem surface_acquired_once (method : Call X num -> M (State Model num) PyVal) :
  method = PredictionError_call \/ method = ResidualsPlot_call ->
  (forall c s, ax (self s) <> PyNone ->
               ax (self (method c s).2) = ax (self s)) /\
  (forall c s, ax (self (method c s).2) <> ax (self s) ->
               ax (self s) = PyNone /\
               exists r, ax (self (method c s).2) = PyAxes r) /\
  (forall cs s, (changes (ax (self s)) (ax_history method cs s) <= 1)%nat) /\
  (forall a b train s,
      ax (self s) = PyNone ->
      exists r p1, plt_gca (plt s) = (Return r, p1) /\
                   ax (self (method (call_draw a b train) s).2) = PyAxes r) /\
  (forall a b train s v s',
      method (call_draw a b train) s = (Return v, s') ->
      v = ax (self s') /\ (ax (self s) <> PyNone -> v = ax (self s))).
Proof.
  intros Hmethod.
  assert (Hacq : forall c, acquires_once (method c)).
  { destruct Hmethod as [-> | ->];
      [apply acq_PredictionError_call | apply acq_ResidualsPlot_call]. }
  split; [|split; [|split; [|split]]].
  - intros c s Hax. apply keeps_ax; auto.
  - intros c s Hne. destruct (Hacq c s) as [Heq|[Hnone Hr]]; [congruence|auto].
  - intros cs s. apply history_changes_once. assumption.
  - intros a b train s Hax.
    destruct (acquire_from_None s Hax) as (r & p1 & Hgca & Hrun).
    exists r, p1. split; [assumption|].
    destruct Hmethod as [-> | ->]; simpl.
    + unfold PredictionError_draw. rewrite (bind_Return _ _ _ _ _ Hrun).
      rewrite keeps_ax; [reflexivity| acq_tac | discriminate].
    + unfold ResidualsPlot_draw. rewrite (bind_Return _ _ _ _ _ Hrun).
      rewrite keeps_ax; [reflexivity| acq_tac | discriminate].
  - intros a b train s v s' Hrun.
    assert (Hv : v = ax (self s')).
    { destruct Hmethod as [-> | ->]; simpl in Hrun.
      - exact (returns_PredictionError_draw _ _ _ _ _ Hrun).
      - exact (returns_ResidualsPlot_draw _ _ _ _ _ _ Hrun). }
    split; [exact Hv|]. intros Hax.
    rewrite Hv. change s' with (Return v, s').2. rewrite <- Hrun.
    apply keeps_ax; auto.
Qed.
End Properties.


(** ** Integer series: [min_of] and [max_of] are the least and the
    greatest element *)

Lemma fold_num_min_Z (t : list Z) (a : Z) :
  let m := fold_left num_min t a in
  (m = a \/ m ∈ t) /\ m <= a /\ Forall (Z.le m) t.
Proof.
  revert a. induction t as [|b t IH]; intros a; simpl.
  - split; [left; reflexivity|]. split; [lia|constructor].
  - destruct (IH (num_min a b)) as ([Hm|Hm] & Hle & Hall);
      unfold num_min in *; simpl in *;
      destruct (Z.leb_spec a b).
    + split; [left; assumption|]. split; [lia|]. constructor; [lia|assumption].
    + split; [right; rewrite Hm; left|]. split; [lia|].
      constructor; [lia|assumption].
    + split; [right; right; assumption|]. split; [lia|].
      constructor; [lia|assumption].
    + split; [right; right; assumption|]. split; [lia|].
      constructor; [lia|assumption].
Qed.

Lemma fold_num_max_Z (t : list Z) (a : Z) :
  let m := fold_left num_max t a in
  (m = a \/ m ∈ t) /\ a <= m /\ Forall (fun b => b <= m) t.
Proof.
  revert a. induction t as [|b t IH]; intros a; simpl.
  - split; [left; reflexivity|]. split; [lia|constructor].
  - destruct (IH (num_max a b)) as ([Hm|Hm] & Hle & Hall);
      unfold num_max in *; simpl in *;
      destruct (Z.leb_spec a b).
    + split; [right; rewrite Hm; left|]. split; [lia|].
      constructor; [lia|assumption].
    + split; [left; assumption|]. split; [lia|]. constructor; [lia|assumption].
    + split; [right; right; assumption|]. split; [lia|].
      constructor; [lia|assumption].
    + split; [right; right; assumption|]. split; [lia|].
      constructor; [lia|assumption].
Qed.

Lemma min_of_Z_least (y : list Z) (m : Z) :
  min_of y = Some m -> m ∈ y /\ Forall (Z.le m) y.
Proof.
  destruct y as [|a t]; simpl; [discriminate|]. intros [= <-].
  destruct (fold_num_min_Z t a) as ([Hm|Hm] & Hle & Hall).
  - split; [rewrite Hm; left|]. constructor; assumption.
  - split; [right; assumption|]. constructor; assumption.
Qed.

Lemma max_of_Z_greatest (y : list Z) (m : Z) :
  max_of y = Some m -> m ∈ y /\ Forall (fun b => b <= m) y.
Proof.
  destruct y as [|a t]; simpl; [discriminate|]. intros [= <-].
  destruct (fold_num_max_Z t a) as ([Hm|Hm] & Hle & Hall).
  - split; [rewrite Hm; left|]. constructor; assumption.
  - split; [right; assumption|]. constructor; assumption.
Qed.

(** ** The properties at concrete visualizers *)

Lemma regressor_gate_witness :
  isregressor no_regressor = false /\
  isregressor shift = true /\
  ResidualsPlot_init ScoreVisualizer_init no_regressor ∅ (@no_figure Z)
  = (Raise (YellowbrickTypeError not_a_regressor), no_figure) /\
  exists v, ResidualsPlot_init ScoreVisualizer_init shift ∅ (@no_figure Z)
            = (Return v, no_figure).
Proof.
  split; [reflexivity|]. split; [reflexivity|]. split.
  - apply (proj1 (regressor_gate (est:=Shift_Estimator) no_regressor ∅ no_figure) eq_refl
             ScoreVisualizer_init).
  - destruct (proj2 (regressor_gate (est:=Shift_Estimator) shift ∅ no_figure)
                eq_refl)
      as (_ & v1 & v2 & v3 & _ & _ & H3 & _).
    exists v3. exact H3.
Defined.

(** C2. With [point_color='#000000'] the constructor stores that colour
    under ['point'], and [draw] still plots every point in ['#F2BE2C']. *)
Example PredictionError_point_color_ignored :
  exists v s',
    PredictionError_init ScoreVisualizer_init shift
      {["point_color" := PyStr "#000000"]} (@no_figure Z)
    = (Return v, no_figure) /\
    colors v !! "point" = Some (PyStr "#000000") /\
    PredictionError_draw [1; 2; 3] [2; 2; 4] {| self := v; plt := no_figure |}
    = (Return (PyAxes 0%nat), s') /\
    scatter_points <$> axes (plt s') !! 0%nat
    = Some [(1, 2, PyStr "#F2BE2C", None);
            (2, 2, PyStr "#F2BE2C", None);
            (3, 4, PyStr "#F2BE2C", None)].
Proof.
  eexists _, _. split; [vm_compute; reflexivity|].
  split; [vm_compute; reflexivity|].
  split; vm_compute; reflexivity.
Qed.

(** C4. With [self.ax] an Axes that is not pyplot's current one (a
    [ResidualsPlot] built with [ax=<Axes 0>] while Axes 1 is current),
    [poof] draws the zero line, the title and the y label on the surface
    and returns it, but the x label "Predicted Value" goes to Axes 1: the
    surface gets no x label. *)
Example ResidualsPlot_poof_xlabel_off_surface :
  exists v s1 s2,
    ResidualsPlot_init ScoreVisualizer_init shift on_axes_0 two_figures
    = (Return v, two_figures) /\
    ax v = PyAxes 0%nat /\
    ResidualsPlot_score [1; 2] [1; 4] false {| self := v; plt := two_figures |}
    = (Return PyNone, s1) /\
    ResidualsPlot_poof s1 = (Return (PyAxes 0%nat), s2) /\
    axes (plt s2) !! 0%nat
    = Some [scatter_call [2; 3] [1; -1] (PyStr "#94BA65") (Some 40)
              (Some (Qmake 1 1));
            hlines_call 0 0 100;
            set_title_call "Residuals for Shift Model";
            set_ylabel_call "Residuals"] /\
    axes (plt s2) !! 1%nat = Some [set_xlabel_call "Predicted Value"] /\
    shown (plt s2) = 1%nat.
Proof.
  eexists _, _, _. split; [vm_compute; reflexivity|].
  split; [reflexivity|]. split; [vm_compute; reflexivity|].
  split; [vm_compute; reflexivity|].
  split; [vm_compute; reflexivity|].
  split; vm_compute; reflexivity.
Qed.

Lemma PredictionError_draw_marks_witness :
  exists s' log',
    PredictionError_draw [1; 2; 3] [2; 2; 4] prediction_error_0
    = (Return (PyAxes 0%nat), s') /\
    axes (plt s') !! 0%nat = Some log' /\
    scatter_marks log' = 3%nat /\
    best_fit_lines log' = 1%nat /\
    last_set xlim_of log' = Some (0, 4) /\
    last_set ylim_of log' = Some (1, 5).
Proof.
  destruct (PredictionError_draw_marks prediction_error_0 0%nat []
              [1; 2; 3] [2; 2; 4] 3 (PyStr "#2B94E9"))
    as (s' & log' & lo & hi & lo' & hi' & Hrun & _ & Hlog & Hmarks & Hlines
        & Hlo & Hhi & Hlo' & Hhi' & Hx & Hy);
    [lia | reflexivity | reflexivity | reflexivity | reflexivity |].
  injection Hlo as <-. injection Hhi as <-.
  injection Hlo' as <-. injection Hhi' as <-.
  exists s', log'. repeat split; assumption.
Defined.

Lemma ResidualsPlot_poof_finalizes_witness :
  exists s',
    ResidualsPlot_poof residuals_plot_1 = (Return (PyAxes 0%nat), s') /\
    shown (plt s') = 1%nat /\
    axes (plt s') !! 0%nat
    = Some [scatter_call [2; 3] [1; -1] (PyStr "#94BA65") (Some 40)
              (Some (Qmake 1 1));
            hlines_call 0 0 100;
            set_title_call "Residuals for Shift Model";
            set_ylabel_call "Residuals";
            set_xlabel_call "Predicted Value"].
Proof.
  destruct (ResidualsPlot_poof_finalizes residuals_plot_1 0%nat
              [scatter_call [2; 3] [1; -1] (PyStr "#94BA65") (Some 40)
                 (Some (Qmake 1 1))])
    as (s' & rc & lc & Hrun & _ & Hshown & Hlog & _ & Hcur & _);
    [reflexivity | reflexivity | exists [scatter_call [2; 3] [1; -1] (PyStr "#94BA65") (Some 40)
                 (Some (Qmake 1 1))]; reflexivity |].
  rewrite (Hcur 0%nat eq_refl) in Hlog.
  exists s'. split; [exact Hrun|]. split; [exact Hshown|exact Hlog].
Defined.

Lemma score_contracts_witness :
  (exists s', ResidualsPlot_score [1; 2; 3] [1; 3; 3] false residuals_plot_0
              = (Return PyNone, s') /\
              axes (plt s') !! 0%nat
              = Some [scatter_call [2; 3; 4] [1; 0; 1] (PyStr "#94BA65")
                        (Some 40) (Some (Qmake 1 1))]) /\
  (exists s', PredictionError_score [1; 2; 3] [1; 3; 3] prediction_error_0
              = (Return (PyAxes 0%nat), s') /\
              axes (plt s') !! 0%nat
              = Some [scatter_call [1; 3; 3] [2; 3; 4] (PyStr "#F2BE2C")
                        None None;
                      best_fit_line [1; 3; 3] [2; 3; 4] "linear" "--" 2
                        (PyStr "#2B94E9");
                      set_xlim_call 0 4; set_ylim_call 1 5]).
Proof.
  split.
  - destruct (proj1 (score_contracts (est:=Shift_Estimator) residuals_plot_0 [1; 2; 3] [1; 3; 3]
                       [2; 3; 4] 0%nat [] eq_refl eq_refl eq_refl)
                false (PyStr "#94BA65") eq_refl)
      as (s' & Hrun & _ & _ & Hlog).
    exists s'. split; [exact Hrun|exact Hlog].
  - destruct (proj2 (score_contracts (est:=Shift_Estimator) prediction_error_0 [1; 2; 3] [1; 3; 3]
                       [2; 3; 4] 0%nat [] eq_refl eq_refl eq_refl)
                (PyStr "#2B94E9") eq_refl)
      as (s' & lo & hi & lo' & hi' & Hrun & _ & _ & Hlo & Hhi & Hlo' & Hhi'
          & Hlog); [simpl; lia|].
    injection Hlo as <-. injection Hhi as <-.
    injection Hlo' as <-. injection Hhi' as <-.
    exists s'. split; [exact Hrun|exact Hlog].
Defined.

Lemma ResidualsPlot_draw_styling_witness :
  ResidualsPlot_init ScoreVisualizer_init shift red_train (@no_figure Z)
  = (Return (self residuals_plot_red), no_figure) /\
  (exists s',
      ResidualsPlot_draw [2; 3] [1; -1] true residuals_plot_red
      = (Return (PyAxes 0%nat), s') /\
      axes (plt s') !! 0%nat
      = Some [scatter_call [2; 3] [1; -1] (PyStr "#FF0000") (Some 40)
                (Some (Qmake 1 2))]) /\
  (exists s',
      ResidualsPlot_draw [2; 3] [1; -1] false residuals_plot_red
      = (Return (PyAxes 0%nat), s') /\
      axes (plt s') !! 0%nat
      = Some [scatter_call [2; 3] [1; -1] (PyStr "#94BA65") (Some 40)
                (Some (Qmake 1 1))]).
Proof.
  assert (Hinit : ResidualsPlot_init ScoreVisualizer_init shift red_train
                    (@no_figure Z)
                  = (Return (self residuals_plot_red), no_figure))
    by (vm_compute; reflexivity).
  split; [exact Hinit|]. split.
  - destruct (ResidualsPlot_draw_styling (est:=Shift_Estimator) shift
                red_train no_figure no_figure (self residuals_plot_red)
                residuals_plot_red 0%nat [] [2; 3] [1; -1] true
                Hinit eq_refl eq_refl eq_refl)
      as (s' & color & alpha & Hrun & _ & Hlog & _ & -> & ->).
    exists s'. split; [exact Hrun|exact Hlog].
  - destruct (ResidualsPlot_draw_styling (est:=Shift_Estimator) shift
                red_train no_figure no_figure (self residuals_plot_red)
                residuals_plot_red 0%nat [] [2; 3] [1; -1] false
                Hinit eq_refl eq_refl eq_refl)
      as (s' & color & alpha & Hrun & _ & Hlog & _ & -> & ->).
    exists s'. split; [exact Hrun|exact Hlog].
Defined.

Lemma ResidualsPlot_poof_before_draw_witness :
  ax (self residuals_plot_0) = PyNone /\
  exists s', ResidualsPlot_poof residuals_plot_0 = (Return PyNone, s') /\
             self s' = self residuals_plot_0 /\
             axes (plt s') = ∅ /\
             shown (plt s') = 0%nat.
Proof.
  split; [reflexivity|].
  destruct (ResidualsPlot_poof_before_draw residuals_plot_0 eq_refl)
    as (s' & Hrun & Hself & Haxes & _ & Hshown).
  exists s'. repeat split; assumption.
Defined.

Lemma ResidualsPlot_fit_draws_training_witness :
  est_fit shift [1; 2; 3] [3; 3; 6] = Return {| regressor := true; offset := 2 |} /\
  exists s',
    ResidualsPlot_fit [1; 2; 3] [3; 3; 6] residuals_plot_0
    = (Return PyNone, s') /\
    estimator (self s') = {| regressor := true; offset := 2 |} /\
    axes (plt s') !! 0%nat
    = Some [scatter_call [3; 4; 5] [0; 1; -1] (PyStr "#2B94E9") (Some 40)
              (Some (Qmake 1 2))].
Proof.
  split; [reflexivity|].
  destruct (ResidualsPlot_fit_draws_training (est:=Shift_Estimator)
              residuals_plot_0 [1; 2; 3] [3; 3; 6] [3; 4; 5]
              {| regressor := true; offset := 2 |} 0%nat []
              (PyStr "#2B94E9") eq_refl eq_refl eq_refl eq_refl eq_refl)
    as (s1 & s' & _ & _ & _ & Hrun & Hest & _ & Hlog).
  exists s'. repeat split; assumption.
Defined.

Lemma surface_acquired_once_witness :
  le (changes PyNone
        (ax_history ResidualsPlot_call
           [call_poof; call_fit [1; 2; 3] [3; 3; 6];
            call_score [1; 2] [1; 4] false; call_poof;
            call_draw [1] [2; 3] true]
           residuals_plot_0)) 1%nat /\
  ax (self (PredictionError_call (call_draw [1; 2] [2; 2] false)
              residuals_plot_1).2) = PyAxes 0%nat.
Proof.
  split.
  - apply (proj1 (proj2 (proj2
             (surface_acquired_once (est:=Shift_Estimator) ResidualsPlot_call
                (or_intror eq_refl))))
             _ residuals_plot_0).
  - apply (proj1 (surface_acquired_once (est:=Shift_Estimator)
                    PredictionError_call (or_introl eq_refl))
             (call_draw [1; 2] [2; 2] false) residuals_plot_1).
    discriminate.
Defined.

Lemma PredictionError_poof_before_draw_witness :
  ax (self prediction_error_0) = PyNone /\
  PredictionError_poof prediction_error_0
  = (Raise (AttributeError "'NoneType' object has no attribute 'set_title'"),
     prediction_error_0) /\
  ResidualsPlot_poof prediction_error_0 = (Return PyNone, prediction_error_0).
Proof.
  split; [reflexivity|].
  exact (PredictionError_poof_before_draw prediction_error_0 eq_refl).
Defined.


(** ** More of the visualizers' behaviour *)

Section Coverage.
Context {Model X num : Type} {scalar : Scalar num}
  {est : Estimator Model X num}.

(** *** The [draw] methods, with the state they leave *)

Lemma acquire_exact (s : State Model num) (r : Ref)
    (log : list (AxesCall num)) :
  drawing_surface s = Some (r, log) ->
  exists p1,
    (a <- self_ax ;;
     if is_None a
     then r <- in_plt plt_gca ;; assign_self_ax (PyAxes r)
     else ret tt) s
    = (Return tt, {| self := set_ax (self s) (PyAxes r); plt := p1 |}) /\
    acquired s r log p1.
Proof.
  destruct s as [[m n a cs] [axs cur sh]].
  unfold drawing_surface, acquired, bind, self_ax. simpl.
  destruct a as [| |r0]; simpl; [|discriminate|].
  - unfold in_plt, plt_gca, assign_self_ax, set_ax. simpl.
    destruct cur as [rc|]; simpl.
    + destruct (axs !! rc) as [l|] eqn:E; simpl; [|discriminate].
      intros [= <- <-]. eexists. split; [reflexivity|]. simpl.
      repeat split; try assumption; discriminate.
    + intros [= <- <-]. eexists. split; [reflexivity|]. simpl.
      split; [apply lookup_insert_eq|].
      repeat split; try discriminate.
      intros r' Hr'. apply lookup_insert_ne. congruence.
  - destruct (axs !! r0) as [l|] eqn:E; simpl; [|discriminate].
    intros [= <- <-]. eexists. split; [reflexivity|]. simpl.
    repeat split; try assumption; discriminate.
Qed.

Lemma PredictionError_draw_exact (s : State Model num) (r : Ref)
    (log : list (AxesCall num)) (y y_pred : list num) (line : PyVal)
    (lo hi lo' hi' : num) :
  drawing_surface s = Some (r, log) ->
  colors (self s) !! "line" = Some line ->
  length y = length y_pred ->
  min_of y = Some lo -> max_of y = Some hi ->
  min_of y_pred = Some lo' -> max_of y_pred = Some hi' ->
  exists p1,
    acquired s r log p1 /\
    PredictionError_draw y y_pred s
    = (Return (PyAxes r),
       draw_on {| self := set_ax (self s) (PyAxes r); plt := p1 |} r
         (log ++ [scatter_call y y_pred (PyStr "#F2BE2C") None None;
                  best_fit_line y y_pred "linear" "--" 2 line;
                  set_xlim_call (num_sub lo num_one) (num_add hi num_one);
                  set_ylim_call (num_sub lo' num_one) (num_add hi' num_one)])).
Proof.
  intros Hs Hline Hlen Hlo Hhi Hlo' Hhi'.
  destruct (acquire_exact s r log Hs) as (p1 & Hacq & Hp1).
  exists p1. split; [exact Hp1|]. destruct Hp1 as (Hlog & _).
  unfold PredictionError_draw. rewrite (bind_Return _ _ _ _ _ Hacq).
  set (s1 := {| self := set_ax (self s) (PyAxes r); plt := p1 |}).
  rewrite (bind_Return _ _ _ _ _
             (run_scatter s1 r log eq_refl Hlog y y_pred _ _ _ Hlen)).
  rewrite (bind_Return _ _ _ _ _
             (run_draw_best_fit (draw_on s1 r _) r _ eq_refl
                (draw_on_lookup _ _ _) y y_pred line Hlen Hline)).
  rewrite draw_on_draw_on.
  rewrite (bind_Return _ _ _ _ _
             (run_set_xlim (draw_on s1 r _) r _ eq_refl
                (draw_on_lookup _ _ _) y lo hi Hlo Hhi)).
  rewrite draw_on_draw_on.
  rewrite (bind_Return _ _ _ _ _
             (run_set_ylim (draw_on s1 r _) r _ eq_refl
                (draw_on_lookup _ _ _) y_pred lo' hi' Hlo' Hhi')).
  rewrite draw_on_draw_on. repeat rewrite <- app_assoc. reflexivity.
Qed.

Lemma ResidualsPlot_draw_exact (s : State Model num) (r : Ref)
    (log : list (AxesCall num)) (y_pred residuals : list num) (train : bool)
    (c : PyVal) :
  drawing_surface s = Some (r, log) ->
  colors (self s) !! (if train then "train_point" else "test_point") = Some c ->
  length y_pred = length residuals ->
  exists p1,
    acquired s r log p1 /\
    ResidualsPlot_draw y_pred residuals train s
    = (Return (PyAxes r),
       draw_on {| self := set_ax (self s) (PyAxes r); plt := p1 |} r
         (log ++ [scatter_call y_pred residuals c (Some 40)
                    (Some (if train then Qmake 1 2 else Qmake 1 1))])).
Proof.
  intros Hs Hc Hlen.
  destruct (acquire_exact s r log Hs) as (p1 & Hacq & Hp1).
  exists p1. split; [exact Hp1|]. destruct Hp1 as (Hlog & _).
  unfold ResidualsPlot_draw. rewrite (bind_Return _ _ _ _ _ Hacq).
  set (s1 := {| self := set_ax (self s) (PyAxes r); plt := p1 |}).
  assert (Hcol : (if train then self_colors "train_point"
                  else self_colors "test_point") s1 = (Return c, s1)).
  { destruct train; unfold self_colors, dict_getitem; simpl; rewrite Hc;
      reflexivity. }
  rewrite (bind_Return _ _ _ _ _ Hcol). cbv zeta.
  rewrite (bind_Return _ _ _ _ _
             (run_scatter s1 r log eq_refl Hlog y_pred residuals c _ _ Hlen)).
  reflexivity.
Qed.

(** After a [draw] the surface is the one the visualizer holds. *)
Lemma drawing_surface_draw_on (v : Visualizer Model) (p1 : Pyplot num)
    (r : Ref) (log : list (AxesCall num)) :
  drawing_surface
    (draw_on {| self := set_ax v (PyAxes r); plt := p1 |} r log)
  = Some (r, log).
Proof.
  unfold drawing_surface. simpl. rewrite lookup_insert_eq. reflexivity.
Qed.

(** *** [PredictionError]: the line's style, [poof] *)

Lemma PredictionError_init_colors (model : Model) (kwargs : gmap string PyVal)
    (p p' : Pyplot num) (v : Visualizer Model) :
  PredictionError_init ScoreVisualizer_init model kwargs p = (Return v, p') ->
  colors v
  = <["point" := default (PyStr "#F2BE2C") (kwargs !! "point_color")]>
      (<["line" := default (PyStr "#2B94E9") (kwargs !! "line_color")]> ∅).
Proof.
  unfold PredictionError_init, bind, RegressionScoreVisualizer_init,
    ScoreVisualizer_init.
  destruct (isregressor model); simpl; [|discriminate].
  intros [= <- _]. simpl.
  rewrite !lookup_delete_ne by discriminate.
  destruct (kwargs !! "point_color"), (kwargs !! "line_color"); reflexivity.
Qed.

(** X1. On a [PredictionError] (its colours as the constructor stored
    them) and series of the same length, not empty, [draw] adds to the
    surface, in this order: the scatter, the best-fit line as a linear fit
    drawn dashed with width 2 in the [line] colour (option [line_color],
    default '#2B94E9'), the x limits and the y limits. *)
Theorem PredictionError_draw_styling (model : Model)
    (kwargs : gmap string PyVal) (p0 p0' : Pyplot num)
    (v : Visualizer Model) (s : State Model num) (r : Ref)
    (log : list (AxesCall num)) (y y_pred : list num) :
  PredictionError_init ScoreVisualizer_init model kwargs p0 = (Return v, p0') ->
  colors (self s) = colors v ->
  drawing_surface s = Some (r, log) ->
  length y = length y_pred ->
  (1 <= length y)%nat ->
  exists s' lo hi lo' hi',
    PredictionError_draw y y_pred s = (Return (PyAxes r), s') /\
    min_of y = Some lo /\ max_of y = Some hi /\
    min_of y_pred = Some lo' /\ max_of y_pred = Some hi' /\
    axes (plt s') !! r
    = Some (log ++
            [scatter_call y y_pred (PyStr "#F2BE2C") None None;
             best_fit_line y y_pred "linear" "--" 2
               (default (PyStr "#2B94E9") (kwargs !! "line_color"));
             set_xlim_call (num_sub lo num_one) (num_add hi num_one);
             set_ylim_call (num_sub lo' num_one) (num_add hi' num_one)]).
Proof.
  intros Hinit Hcolors Hs Hlen Hn.
  pose proof (PredictionError_init_colors _ _ _ _ _ Hinit) as Hv.
  assert (Hline : colors (self s) !! "line"
                  = Some (default (PyStr "#2B94E9") (kwargs !! "line_color"))).
  { rewrite Hcolors, Hv. rewrite lookup_insert_ne by discriminate.
    apply lookup_insert_eq. }
  destruct (nonempty_min_max y) as (lo & hi & Hlo & Hhi); [lia|].
  destruct (nonempty_min_max y_pred) as (lo' & hi' & Hlo' & Hhi'); [lia|].
  destruct (PredictionError_draw_exact s r log y y_pred _ lo hi lo' hi'
              Hs Hline Hlen Hlo Hhi Hlo' Hhi') as (p1 & _ & Hrun).
  eexists _, lo, hi, lo', hi'. split; [exact Hrun|].
  repeat (split; [assumption|]). apply draw_on_lookup.
Qed.

Lemma PredictionError_poof_on_current (s : State Model num) (r : Ref)
    (log : list (AxesCall num)) :
  ax (self s) = PyAxes r ->
  axes (plt s) !! r = Some log ->
  current (plt s) = Some r ->
  PredictionError_poof s
  = (Return (PyAxes r),
     {| self := self s;
        plt := {| axes := <[r := log ++
                              [set_title_call ("Prediction Error for " +:+ name (self s));
                               set_ylabel_call "Predicted";
                               set_xlabel_call "Measured"]]> (axes (plt s));
                  current := Some r;
                  shown := S (shown (plt s)) |} |}).
Proof.
  intros Hax Hlog Hcur. unfold PredictionError_poof.
  erewrite bind_Return
    by exact (run_set_title s r log Hax Hlog
                (fun n => "Prediction Error for " +:+ n)).
  erewrite bind_Return
    by exact (run_axes_call (draw_on s r _) r _ Hax (draw_on_lookup _ _ _)
                "set_ylabel" (set_ylabel_call "Predicted")).
  rewrite draw_on_draw_on.
  unfold bind, in_plt, plt_xlabel, bind, plt_gca, plt_show, axes_call,
    self_ax. simpl.
  rewrite Hcur. simpl. rewrite lookup_insert_eq. simpl.
  rewrite Hax, Hcur, insert_insert_eq. repeat rewrite <- app_assoc.
  reflexivity.
Qed.

Lemma ResidualsPlot_poof_on_current (s : State Model num) (r : Ref)
    (log : list (AxesCall num)) :
  ax (self s) = PyAxes r ->
  axes (plt s) !! r = Some log ->
  current (plt s) = Some r ->
  ResidualsPlot_poof s
  = (Return (PyAxes r),
     {| self := self s;
        plt := {| axes := <[r := log ++
                              [hlines_call 0 0 100;
                               set_title_call
                                 ("Residuals for " +:+ name (self s) +:+ " Model");
                               set_ylabel_call "Residuals";
                               set_xlabel_call "Predicted Value"]]> (axes (plt s));
                  current := Some r;
                  shown := S (shown (plt s)) |} |}).
Proof.
  intros Hax Hlog Hcur. unfold ResidualsPlot_poof.
  rewrite (bind_Return self_ax _ s (PyAxes r) s)
    by (unfold self_ax; rewrite Hax; reflexivity).
  cbn [is_None].
  erewrite bind_Return
    by exact (run_axes_call s r log Hax Hlog "hlines" (hlines_call 0 0 100)).
  erewrite bind_Return
    by exact (run_set_title (draw_on s r _) r _ Hax (draw_on_lookup _ _ _)
                (fun n => "Residuals for " +:+ n +:+ " Model")).
  rewrite draw_on_draw_on.
  erewrite bind_Return
    by exact (run_axes_call (draw_on s r _) r _ Hax (draw_on_lookup _ _ _)
                "set_ylabel" (set_ylabel_call "Residuals")).
  rewrite draw_on_draw_on.
  unfold bind, in_plt, plt_xlabel, bind, plt_gca, plt_show, axes_call,
    self_ax. simpl.
  rewrite Hcur. simpl. rewrite lookup_insert_eq. simpl.
  rewrite Hax, Hcur, insert_insert_eq. repeat rewrite <- app_assoc.
  reflexivity.
Qed.

(** X2. [PredictionError.poof] on a visualizer that holds a surface sets
    its title to "Prediction Error for <name>" and its y label to
    "Predicted", sets the x label "Measured" through pyplot (on the current
    Axes, which need not be the surface), shows the figure once, and
    returns the surface. *)
Theorem PredictionError_poof_finalizes (s : State Model num) (r : Ref)
    (log : list (AxesCall num)) :
  ax (self s) = PyAxes r ->
  axes (plt s) !! r = Some log ->
  plt_wf (plt s) ->
  exists s' rc lc,
    PredictionError_poof s = (Return (PyAxes r), s') /\
    self s' = self s /\
    shown (plt s') = S (shown (plt s)) /\
    axes (plt s') !! r
    = Some (log ++ [set_title_call ("Prediction Error for " +:+ name (self s));
                    set_ylabel_call "Predicted"]
                ++ (if decide (rc = r)
                    then [set_xlabel_call "Measured"] else [])) /\
    current (plt s') = Some rc /\
    (forall c, current (plt s) = Some c -> rc = c) /\
    axes (plt s') !! rc = Some lc /\
    last_set xlabel_of lc = Some "Measured".
Proof.
  intros Hax Hlog Hwf. unfold PredictionError_poof.
  erewrite bind_Return
    by exact (run_set_title s r log Hax Hlog
                (fun n => "Prediction Error for " +:+ n)).
  erewrite bind_Return
    by exact (run_axes_call (draw_on s r _) r _ Hax (draw_on_lookup _ _ _)
                "set_ylabel" (set_ylabel_call "Predicted")).
  rewrite draw_on_draw_on. repeat rewrite <- app_assoc. simpl app.
  set (log2 := log ++ [_; _]).
  destruct (run_plt_xlabel (draw_on s r log2) "Measured"
              (plt_wf_draw_on s r log2 Hwf))
    as (rc & lc & p1 & Hgca & Hlc & Hcur & Hsame & Hsh & Hold & Hx).
  rewrite (bind_Return _ _ _ _ _ Hx).
  unfold bind, in_plt, plt_show, self_ax. simpl.
  assert (Hr : axes p1 !! r = Some log2).
  { rewrite Hold; rewrite draw_on_lookup; eauto. }
  eexists _, rc, (lc ++ [set_xlabel_call "Measured"]).
  split; [rewrite Hax; reflexivity|]. simpl.
  split; [reflexivity|]. split; [rewrite Hsh; reflexivity|].
  split; [|split; [exact Hcur|split; [exact Hsame|split]]].
  - destruct (decide (rc = r)) as [->|Hne].
    + rewrite lookup_insert_eq. rewrite Hr in Hlc. injection Hlc as <-.
      subst log2. rewrite <- app_assoc. reflexivity.
    + rewrite lookup_insert_ne by assumption. rewrite Hr. reflexivity.
  - apply lookup_insert_eq.
  - apply last_set_app. reflexivity.
Qed.


(** *** Repeated, empty and mismatched draws *)

Lemma limits_after_draw (log : list (AxesCall num)) (a b : AxesCall num)
    (lo hi lo' hi' : num) :
  xlim_of a = None -> xlim_of b = None ->
  last_set xlim_of (log ++ [a; b; set_xlim_call lo hi; set_ylim_call lo' hi'])
  = Some (lo, hi) /\
  last_set ylim_of (log ++ [a; b; set_xlim_call lo hi; set_ylim_call lo' hi'])
  = Some (lo', hi').
Proof.
  intros Ha Hb. unfold last_set. rewrite !fold_left_app. simpl.
  split; reflexivity.
Qed.

(** X3. Every [PredictionError.draw] adds its own scatter and its own
    best-fit line to the one surface: after drawing the pairs of a list,
    each of equal lengths and not empty, the surface shows as many more
    best-fit lines as there were draws and as many more marks as there
    were samples, and its limits are those of the last pair alone. *)
Theorem PredictionError_draws_accumulate
    (ps : list (list num * list num)) (s : State Model num) (r : Ref)
    (log : list (AxesCall num)) (line : PyVal) :
  drawing_surface s = Some (r, log) ->
  colors (self s) !! "line" = Some line ->
  Forall (fun p => length p.1 = length p.2 /\ (1 <= length p.1)%nat) ps ->
  exists log',
    drawing_surface (run_calls PredictionError_call (draw_calls ps) s)
    = Some (r, log') /\
    best_fit_lines log' = (best_fit_lines log + length ps)%nat /\
    scatter_marks log'
    = (scatter_marks log + sum_list_with (fun p => length p.1) ps)%nat /\
    (forall y y_pred,
        last ps = Some (y, y_pred) ->
        exists lo hi lo' hi',
          min_of y = Some lo /\ max_of y = Some hi /\
          min_of y_pred = Some lo' /\ max_of y_pred = Some hi' /\
          last_set xlim_of log'
          = Some (num_sub lo num_one, num_add hi num_one) /\
          last_set ylim_of log'
          = Some (num_sub lo' num_one, num_add hi' num_one)).
Proof.
  revert s log. induction ps as [|[y yp] ps IH]; intros s log Hs Hline Hall.
  - exists log. simpl. split; [exact Hs|]. split; [lia|]. split; [lia|].
    intros y yp [=].
  - inversion Hall as [|p ps' [Hlen Hn] Hall']; subst. simpl in Hlen, Hn.
    destruct (nonempty_min_max y) as (lo & hi & Hlo & Hhi); [lia|].
    destruct (nonempty_min_max yp) as (lo' & hi' & Hlo' & Hhi'); [lia|].
    destruct (PredictionError_draw_exact s r log y yp line lo hi lo' hi'
                Hs Hline Hlen Hlo Hhi Hlo' Hhi') as (p1 & _ & Hrun).
    set (log1 := log ++ [_; _; _; _]) in Hrun.
    set (s1 := draw_on {| self := set_ax (self s) (PyAxes r); plt := p1 |}
                 r log1) in Hrun.
    assert (Hs1 : drawing_surface s1 = Some (r, log1))
      by apply drawing_surface_draw_on.
    destruct (IH s1 log1 Hs1 Hline Hall') as (log' & Hd & Hlines & Hmarks & Hlast).
    exists log'. simpl. unfold draw_calls in Hd. rewrite Hrun. simpl.
    split; [exact Hd|].
    assert (Hb1 : best_fit_lines log1 = (best_fit_lines log + 1)%nat).
    { subst log1. unfold best_fit_lines. rewrite sum_list_with_app. simpl. lia. }
    assert (Hm1 : scatter_marks log1 = (scatter_marks log + length y)%nat).
    { subst log1. unfold scatter_marks. rewrite sum_list_with_app. simpl. lia. }
    split; [lia|]. split; [lia|].
    intros y0 yp0 Hl. destruct ps as [|q ps].
    + simpl in Hl. injection Hl as <- <-. simpl in Hd.
      rewrite Hs1 in Hd. injection Hd as <-.
      exists lo, hi, lo', hi'. repeat (split; [assumption|]).
      subst log1. apply limits_after_draw; reflexivity.
    + apply Hlast. exact Hl.
Qed.

Lemma PredictionError_draw_with_draw_best_fit (y y_pred : list num) :
  PredictionError_draw_with (Model:=Model) draw_best_fit y y_pred
  = PredictionError_draw y y_pred.
Proof. reflexivity. Qed.

(** X4. [PredictionError.draw] with an empty [y] never returns, whatever
    the best-fit helper does.  With a [y_pred] that is not empty it raises
    the [ValueError] of [scatter], with pyplot as the acquisition of the
    surface left it.  With an empty [y_pred] the empty scatter is added and
    the helper runs: either its error comes through, or, when it returns,
    [y.min()] raises the zero-size [ValueError]; either way pyplot is as
    the helper left it, so no limit is set.  In every case [self.ax] holds
    the surface. *)
Theorem PredictionError_draw_empty
    (best_fit : list num -> list num -> PyVal -> string -> string -> Z ->
                PyVal -> M (Pyplot num) unit)
    (s : State Model num) (r : Ref) (log : list (AxesCall num))
    (line : PyVal) (y_pred : list num) :
  drawing_surface s = Some (r, log) ->
  colors (self s) !! "line" = Some line ->
  exists p1 e p',
    acquired s r log p1 /\
    PredictionError_draw_with best_fit [] y_pred s
    = (Raise e, {| self := set_ax (self s) (PyAxes r); plt := p' |}) /\
    match y_pred with
    | _ :: _ => e = ValueError "x and y must be the same size" /\ p' = p1
    | [] =>
        match best_fit [] [] (PyAxes r) "linear" "--" 2 line
                (set_axes
                   <[r := log ++ [scatter_call [] [] (PyStr "#F2BE2C")
                                    None None]]> p1)
        with
        | (Return _, p3) =>
            e = ValueError "zero-size array to reduction operation minimum which has no identity" /\
            p' = p3
        | (Raise e', p3) => e = e' /\ p' = p3
        end
    end.
Proof.
  intros Hs Hline.
  destruct (acquire_exact s r log Hs) as (p1 & Hacq & Hp1).
  exists p1. pose proof Hp1 as (Hlog & _).
  unfold PredictionError_draw_with. rewrite (bind_Return _ _ _ _ _ Hacq).
  set (s1 := {| self := set_ax (self s) (PyAxes r); plt := p1 |}).
  destruct y_pred as [|b y_pred].
  - rewrite (bind_Return _ _ _ _ _
               (run_scatter s1 r log eq_refl Hlog [] [] _ _ _ eq_refl)).
    unfold bind at 1. unfold bind at 1. unfold self_ax at 1.
    unfold bind at 1. unfold self_colors at 1. unfold dict_getitem.
    cbn [draw_on self plt colors set_ax ax s1 fst snd].
    rewrite Hline. cbn [ret]. unfold in_plt at 1.
    cbn [draw_on self plt colors set_ax ax s1 fst snd].
    destruct (best_fit [] [] (PyAxes r) "linear" "--" 2 line
                (set_axes
                   <[r := log ++ [scatter_call [] [] (PyStr "#F2BE2C")
                                    None None]]> p1))
      as [[u|e'] p3] eqn:Hfit.
    + eexists _, p3. split; [exact Hp1|]. split; [reflexivity|].
      split; reflexivity.
    + exists e', p3. split; [exact Hp1|]. split; [reflexivity|].
      split; reflexivity.
  - rewrite (bind_Raise _ _ _ _ _
               (run_scatter_mismatch s1 r log eq_refl Hlog [] (b :: y_pred)
                  _ _ _ ltac:(discriminate))).
    eexists _, p1. split; [exact Hp1|]. split; [reflexivity|].
    split; reflexivity.
Qed.

(** X5. [ResidualsPlot.draw] on series of the same length, empty or not,
    adds one mark per sample, at (predicted, residual) in the colour and
    opacity of its [train] flag, and nothing else: no line, no limits, no
    label, no show. *)
Theorem ResidualsPlot_draw_marks (s : State Model num) (r : Ref)
    (log : list (AxesCall num)) (y_pred residuals : list num) (train : bool)
    (c : PyVal) :
  drawing_surface s = Some (r, log) ->
  colors (self s) !! (if train then "train_point" else "test_point") = Some c ->
  length y_pred = length residuals ->
  exists s' log',
    ResidualsPlot_draw y_pred residuals train s = (Return (PyAxes r), s') /\
    axes (plt s') !! r = Some log' /\
    scatter_marks log' = (scatter_marks log + length y_pred)%nat /\
    scatter_points log'
    = scatter_points log ++
      map (fun xy => (xy.1, xy.2, c,
                      Some (if train then Qmake 1 2 else Qmake 1 1)))
          (zip y_pred residuals) /\
    best_fit_lines log' = best_fit_lines log /\
    last_set xlim_of log' = last_set xlim_of log /\
    last_set ylim_of log' = last_set ylim_of log /\
    last_set xlabel_of log' = last_set xlabel_of log /\
    shown (plt s') = shown (plt s).
Proof.
  intros Hs Hc Hlen.
  destruct (ResidualsPlot_draw_exact s r log y_pred residuals train c
              Hs Hc Hlen) as (p1 & (_ & Hsh & _) & Hrun).
  eexists _, _. split; [exact Hrun|]. split; [apply draw_on_lookup|].
  split; [|split; [|split]].
  - unfold scatter_marks. rewrite sum_list_with_app. simpl. lia.
  - unfold scatter_points. rewrite map_app, concat_app. simpl.
    rewrite app_nil_r. reflexivity.
  - unfold best_fit_lines. rewrite sum_list_with_app. simpl. lia.
  - rewrite !last_set_skip by reflexivity. simpl.
    repeat split; try reflexivity. exact Hsh.
Qed.


(** *** Errors before the surface is reached *)

Lemma series_sub_mismatch {S} (a b : list num) (s : S) :
  length a <> length b -> length a <> 1%nat -> length b <> 1%nat ->
  series_sub a b s
  = (Raise (ValueError "operands could not be broadcast together"), s).
Proof.
  intros Hne Ha Hb. unfold series_sub. rewrite decide_False by assumption.
  destruct a as [|x [|x' a]], b as [|y [|y' b]]; simpl in *;
    try reflexivity; congruence.
Qed.

(** X6. [ResidualsPlot.score] with predictions and targets whose lengths
    differ, neither of length one, raises at the subtraction, before
    [draw]: the visualizer and pyplot are as before, and a [self.ax] that
    was [None] still is. *)
Theorem ResidualsPlot_score_mismatch (s : State Model num) (x : X)
    (y y_pred : list num) (train : bool) :
  est_predict (estimator (self s)) x = Return y_pred ->
  length y_pred <> length y ->
  length y_pred <> 1%nat ->
  length y <> 1%nat ->
  ResidualsPlot_score x y train s
  = (Raise (ValueError "operands could not be broadcast together"), s).
Proof.
  intros Hpred Hne Hp Hy. unfold ResidualsPlot_score.
  rewrite (bind_Return (ScoreVisualizer_predict x) _ s y_pred s)
    by (unfold ScoreVisualizer_predict; rewrite Hpred; reflexivity).
  rewrite (bind_Raise _ _ _ _ _ (series_sub_mismatch _ _ _ Hne Hp Hy)).
  reflexivity.
Qed.

(** X7. [ResidualsPlot.fit] is not all-or-nothing.  When training raises,
    the error comes through with the visualizer and pyplot as before; when
    training succeeds and the prediction raises, the error comes through
    with the estimator trained and nothing drawn. *)
Theorem ResidualsPlot_fit_errors (s : State Model num) (x : X)
    (y : list num) (e : Exception) :
  (est_fit (estimator (self s)) x y = Raise e ->
   ResidualsPlot_fit x y s = (Raise e, s)) /\
  (forall m', est_fit (estimator (self s)) x y = Return m' ->
              est_predict m' x = Raise e ->
              ResidualsPlot_fit x y s
              = (Raise e, {| self := set_estimator (self s) m';
                             plt := plt s |})).
Proof.
  split.
  - intros Hfit. unfold ResidualsPlot_fit.
    rewrite (bind_Raise (ScoreVisualizer_fit x y) _ s e s)
      by (unfold ScoreVisualizer_fit; rewrite Hfit; reflexivity).
    reflexivity.
  - intros m' Hfit Hpred. unfold ResidualsPlot_fit.
    rewrite (bind_Return (ScoreVisualizer_fit x y) _ s tt
               {| self := set_estimator (self s) m'; plt := plt s |})
      by (unfold ScoreVisualizer_fit; rewrite Hfit; reflexivity).
    unfold ResidualsPlot_score.
    erewrite (bind_Raise (bind (ScoreVisualizer_predict x) _)); [reflexivity|].
    apply bind_Raise. unfold ScoreVisualizer_predict. simpl.
    rewrite Hpred. reflexivity.
Qed.

(** *** Drawing on a surface the visualizer holds already *)

Lemma set_ax_same (v : Visualizer Model) (a : PyVal) :
  ax v = a -> set_ax v a = v.
Proof. intros <-. destruct v; reflexivity. Qed.

(** X8. When the visualizer holds an Axes already (one passed as [ax], or
    acquired by an earlier [draw]), a [draw] changes nothing but what that
    Axes shows: the visualizer, pyplot's current Axes, every other Axes
    and the number of shows are as before. *)
Theorem draw_on_held_surface (s : State Model num) (r : Ref)
    (log : list (AxesCall num)) :
  ax (self s) = PyAxes r ->
  axes (plt s) !! r = Some log ->
  (forall (y_pred residuals : list num) (train : bool) (c : PyVal),
      colors (self s) !! (if train then "train_point" else "test_point")
      = Some c ->
      length y_pred = length residuals ->
      ResidualsPlot_draw y_pred residuals train s
      = (Return (PyAxes r),
         draw_on s r
           (log ++ [scatter_call y_pred residuals c (Some 40)
                      (Some (if train then Qmake 1 2 else Qmake 1 1))]))) /\
  (forall (y y_pred : list num) (line : PyVal),
      colors (self s) !! "line" = Some line ->
      length y = length y_pred ->
      (1 <= length y)%nat ->
      exists log',
        PredictionError_draw y y_pred s = (Return (PyAxes r), draw_on s r log') /\
        firstn (length log) log' = log).
Proof.
  intros Hax Hlog.
  assert (Hs : drawing_surface s = Some (r, log)).
  { unfold drawing_surface. rewrite Hax, Hlog. reflexivity. }
  split.
  - intros y_pred residuals train c Hc Hlen.
    destruct (ResidualsPlot_draw_exact s r log y_pred residuals train c
                Hs Hc Hlen) as (p1 & (_ & _ & Hsame & _) & Hrun).
    rewrite Hrun, (Hsame Hax), (set_ax_same _ _ Hax).
    destruct s; reflexivity.
  - intros y y_pred line Hline Hlen Hn.
    destruct (nonempty_min_max y) as (lo & hi & Hlo & Hhi); [lia|].
    destruct (nonempty_min_max y_pred) as (lo' & hi' & Hlo' & Hhi'); [lia|].
    destruct (PredictionError_draw_exact s r log y y_pred line lo hi lo' hi'
                Hs Hline Hlen Hlo Hhi Hlo' Hhi')
      as (p1 & (_ & _ & Hsame & _) & Hrun).
    eexists. split.
    + rewrite Hrun, (Hsame Hax), (set_ax_same _ _ Hax).
      destruct s; reflexivity.
    + rewrite take_app_length. reflexivity.
Qed.


(** *** What a call leaves alone *)

Lemma frame_refl ke ks (s : State Model num) : frame ke ks s s.
Proof. repeat split. Qed.

Lemma frame_trans ke ks (s1 s2 s3 : State Model num) :
  frame ke ks s1 s2 -> frame ke ks s2 s3 -> frame ke ks s1 s3.
Proof.
  intros (Hn & Hc & He & Hs) (Hn' & Hc' & He' & Hs').
  repeat split; try congruence.
  - intros Hk. rewrite He', He by assumption. reflexivity.
  - intros Hk. rewrite Hs', Hs by assumption. reflexivity.
Qed.

Lemma frame_ret {A} ke ks (a : A) :
  within (Model:=Model) (num:=num) (frame ke ks) (ret a).
Proof. intros s. apply frame_refl. Qed.

Lemma frame_raise {A} ke ks e :
  within (Model:=Model) (num:=num) (A:=A) (frame ke ks) (raise e).
Proof. intros s. apply frame_refl. Qed.

Lemma frame_bind {A B} ke ks (m : M (State Model num) A)
    (k : A -> M (State Model num) B) :
  within (frame ke ks) m -> (forall a, within (frame ke ks) (k a)) ->
  within (frame ke ks) (bind m k).
Proof.
  intros Hm Hk s. specialize (Hm s). unfold bind.
  destruct (m s) as [[a|e] s1]; simpl in *; [|exact Hm].
  eapply frame_trans; [exact Hm|apply Hk].
Qed.

Lemma frame_self_ax ke ks :
  within (Model:=Model) (num:=num) (frame ke ks) self_ax.
Proof. intros s. apply frame_refl. Qed.

Lemma frame_self_name ke ks :
  within (Model:=Model) (num:=num) (frame ke ks) self_name.
Proof. intros s. apply frame_refl. Qed.

Lemma frame_self_colors ke ks k :
  within (Model:=Model) (num:=num) (frame ke ks) (self_colors k).
Proof.
  intros s. unfold self_colors, dict_getitem.
  destruct (colors (self s) !! k); apply frame_refl.
Qed.

Lemma frame_axes_method ke ks a attr :
  within (Model:=Model) (num:=num) (frame ke ks) (axes_method a attr).
Proof. intros s. destruct a; apply frame_refl. Qed.

Lemma frame_series_min ke ks (y : list num) :
  within (Model:=Model) (num:=num) (frame ke ks) (series_min y).
Proof. intros s. unfold series_min. destruct (min_of y); apply frame_refl. Qed.

Lemma frame_series_max ke ks (y : list num) :
  within (Model:=Model) (num:=num) (frame ke ks) (series_max y).
Proof. intros s. unfold series_max. destruct (max_of y); apply frame_refl. Qed.

Lemma frame_series_sub ke ks (a b : list num) :
  within (Model:=Model) (num:=num) (frame ke ks) (series_sub a b).
Proof.
  intros s. unfold series_sub.
  destruct (decide (length a = length b)); [apply frame_refl|].
  destruct a as [|? [|? ?]], b as [|? [|? ?]]; apply frame_refl.
Qed.

Lemma frame_predict ke ks (x : X) :
  within (frame ke ks) (ScoreVisualizer_predict x).
Proof. intros s. apply frame_refl. Qed.

Lemma frame_assign_self_ax ke ks a :
  within (Model:=Model) (num:=num) (frame ke ks) (assign_self_ax a).
Proof. intros s. repeat split. Qed.

Lemma frame_fit ks (x : X) (y : list num) :
  within (frame false ks) (ScoreVisualizer_fit x y).
Proof.
  intros s. unfold ScoreVisualizer_fit.
  destruct (est_fit (estimator (self s)) x y); repeat split; discriminate.
Qed.

Lemma frame_in_plt_any {A} ke (m : M (Pyplot num) A) :
  within (Model:=Model) (frame ke false) (in_plt m).
Proof.
  intros s. unfold in_plt. destruct (m (plt s)).
  repeat split; discriminate.
Qed.

Lemma frame_in_plt {A} ke ks (m : M (Pyplot num) A) :
  (forall p, shown (m p).2 = shown p) ->
  within (Model:=Model) (frame ke ks) (in_plt m).
Proof.
  intros Hm s. unfold in_plt. specialize (Hm (plt s)).
  destruct (m (plt s)). repeat split. intros _. exact Hm.
Qed.

Lemma shown_plt_gca (p : Pyplot num) : shown (plt_gca p).2 = shown p.
Proof. unfold plt_gca. destruct (current p); reflexivity. Qed.

Lemma shown_axes_call r (c : AxesCall num) (p : Pyplot num) :
  shown (axes_call r c p).2 = shown p.
Proof. unfold axes_call. destruct (axes p !! r); reflexivity. Qed.

Lemma shown_Axes_scatter r (x y : list num) c sz alpha (p : Pyplot num) :
  shown (Axes_scatter r x y c sz alpha p).2 = shown p.
Proof.
  unfold Axes_scatter. destruct (decide (length x = length y));
    [apply shown_axes_call|reflexivity].
Qed.

Lemma shown_draw_best_fit (x y : list num) a kind ls lw c (p : Pyplot num) :
  shown (draw_best_fit x y a kind ls lw c p).2 = shown p.
Proof.
  unfold draw_best_fit. destruct (decide (length x = length y));
    [|reflexivity].
  destruct a; try reflexivity. apply shown_axes_call.
Qed.

Lemma shown_plt_xlabel label (p : Pyplot num) :
  shown (plt_xlabel label p).2 = shown p.
Proof.
  unfold plt_xlabel, bind. pose proof (shown_plt_gca p) as Hg.
  destruct (plt_gca p) as [[r|e] p1]; simpl in *; [|exact Hg].
  rewrite shown_axes_call. exact Hg.
Qed.

Create HintDb frame.
Hint Resolve frame_ret frame_raise frame_self_ax frame_self_name
  frame_self_colors frame_axes_method frame_series_min frame_series_max
  frame_series_sub frame_predict frame_assign_self_ax frame_fit : frame.

Ltac frame_leaf :=
  first
    [ apply frame_in_plt_any
    | apply frame_in_plt; intros;
      first [ apply shown_plt_gca | apply shown_Axes_scatter
            | apply shown_draw_best_fit | apply shown_plt_xlabel
            | apply shown_axes_call ]
    | solve [auto with frame] ].

Ltac frame_tac :=
  cbv zeta;
  repeat first
    [ apply frame_bind; [|intros]
    | match goal with
      | |- within _ (if ?b then _ else _) => destruct b
      end
    | frame_leaf ].

Lemma frame_PredictionError_draw (y y_pred : list num) :
  within (Model:=Model) (frame true true) (PredictionError_draw y y_pred).
Proof. unfold PredictionError_draw. frame_tac. Qed.

Lemma frame_ResidualsPlot_draw (y_pred residuals : list num) (train : bool) :
  within (Model:=Model) (frame true true)
    (ResidualsPlot_draw y_pred residuals train).
Proof. unfold ResidualsPlot_draw. frame_tac. Qed.

Lemma frame_ResidualsPlot_score ke (x : X) (y : list num) (train : bool) :
  within (frame ke true) (ResidualsPlot_score x y train).
Proof.
  unfold ResidualsPlot_score, ResidualsPlot_draw. frame_tac.
Qed.

Lemma once_of_frame {A} ke (m : M (State Model num) A) :
  within (frame ke true) m -> shows_at_most_once m.
Proof. intros Hm s. left. apply (Hm s). reflexivity. Qed.

Lemma once_bind {A B} ke (m : M (State Model num) A)
    (k : A -> M (State Model num) B) :
  within (frame ke true) m -> (forall a, shows_at_most_once (k a)) ->
  shows_at_most_once (bind m k).
Proof.
  intros Hm Hk s. destruct (Hm s) as (_ & _ & _ & Hs). unfold bind.
  destruct (m s) as [[a|e] s1]; simpl in *; [|left; auto].
  rewrite <- (Hs eq_refl). apply Hk.
Qed.

Lemma once_show :
  shows_at_most_once (Model:=Model) (num:=num) (in_plt plt_show ;;; self_ax).
Proof. intros s. right. reflexivity. Qed.

Lemma once_PredictionError_poof :
  shows_at_most_once (Model:=Model) (num:=num) PredictionError_poof.
Proof.
  unfold PredictionError_poof.
  repeat (apply (once_bind true); [solve [frame_tac]|intros]).
  apply once_show.
Qed.

Lemma once_ResidualsPlot_poof :
  shows_at_most_once (Model:=Model) (num:=num) ResidualsPlot_poof.
Proof.
  unfold ResidualsPlot_poof.
  apply (once_bind true); [frame_tac|intros a]. destruct (is_None a).
  - apply (once_of_frame true). frame_tac.
  - repeat (apply (once_bind true); [solve [frame_tac]|intros]).
    apply once_show.
Qed.

(** X9. What the calls on a [PredictionError] or a [ResidualsPlot] leave
    alone, whether they return or raise: no call changes the name or the
    colours; only [fit] changes the estimator; only [poof] shows the
    figure, and at most once per call. *)
Theorem calls_frame (method : Call X num -> M (State Model num) PyVal) :
  method = PredictionError_call \/ method = ResidualsPlot_call ->
  forall c s,
    name (self (method c s).2) = name (self s) /\
    colors (self (method c s).2) = colors (self s) /\
    ((forall x y, c <> call_fit x y) ->
     estimator (self (method c s).2) = estimator (self s)) /\
    (c <> call_poof -> shown (plt (method c s).2) = shown (plt s)) /\
    (shown (plt (method c s).2) = shown (plt s) \/
     shown (plt (method c s).2) = S (shown (plt s))).
Proof.
  intros Hmethod c s.
  assert (Hfit : forall x y, within (frame false true) (method (call_fit x y))).
  { intros x y. destruct Hmethod as [-> | ->]; simpl.
    - frame_tac.
    - unfold ResidualsPlot_fit. frame_tac. }
  assert (Hscore : forall x y t,
             within (frame true true) (method (call_score x y t))).
  { intros x y t. destruct Hmethod as [-> | ->]; simpl.
    - unfold PredictionError_score. frame_tac.
    - apply frame_ResidualsPlot_score. }
  assert (Hdraw : forall a b t,
             within (frame true true) (method (call_draw a b t))).
  { intros a b t. destruct Hmethod as [-> | ->]; simpl.
    - apply frame_PredictionError_draw.
    - apply frame_ResidualsPlot_draw. }
  assert (Hpoof : within (frame true false) (method call_poof) /\
                  shows_at_most_once (method call_poof)).
  { destruct Hmethod as [-> | ->]; simpl.
    - split; [unfold PredictionError_poof; frame_tac
             |apply once_PredictionError_poof].
    - split; [unfold ResidualsPlot_poof; frame_tac
             |apply once_ResidualsPlot_poof]. }
  destruct c as [x y|x y t|a b t|].
  - destruct (Hfit x y s) as (Hn & Hc & _ & Hs).
    repeat split; auto. intros Hne. destruct (Hne x y eq_refl).
  - destruct (Hscore x y t s) as (Hn & Hc & He & Hs). repeat split; auto.
  - destruct (Hdraw a b t s) as (Hn & Hc & He & Hs). repeat split; auto.
  - destruct Hpoof as [Hf Ho]. destruct (Hf s) as (Hn & Hc & He & _).
    repeat split; auto. congruence.
Qed.


(** *** Colour entries that nothing reads *)

Lemma same_but_refl k (s : State Model num) : same_but k s s.
Proof. repeat split. Qed.

Lemma ignores_unchanged {A} k (m : M (State Model num) A) :
  (forall s, (m s).2 = s) ->
  (forall s1 s2, same_but k s1 s2 -> (m s1).1 = (m s2).1) ->
  ignores k m.
Proof.
  intros Hst Hres s1 s2 Hs. split; [auto|]. rewrite !Hst. exact Hs.
Qed.

Lemma ignores_ret {A} k (a : A) :
  ignores (Model:=Model) (num:=num) k (ret a).
Proof. apply ignores_unchanged; reflexivity. Qed.

Lemma ignores_raise {A} k e :
  ignores (Model:=Model) (num:=num) (A:=A) k (raise e).
Proof. apply ignores_unchanged; reflexivity. Qed.

Lemma ignores_bind {A B} k (m : M (State Model num) A)
    (f : A -> M (State Model num) B) :
  ignores k m -> (forall a, ignores k (f a)) -> ignores k (bind m f).
Proof.
  intros Hm Hf s1 s2 Hs. destruct (Hm s1 s2 Hs) as [Hres Hs']. unfold bind.
  destruct (m s1) as [[a1|e1] t1], (m s2) as [[a2|e2] t2]; simpl in *;
    try discriminate.
  - injection Hres as <-. apply Hf. exact Hs'.
  - injection Hres as <-. split; [reflexivity|exact Hs'].
Qed.

Lemma ignores_self_ax k : ignores (Model:=Model) (num:=num) k self_ax.
Proof.
  apply ignores_unchanged; [reflexivity|].
  intros s1 s2 (_ & _ & Hax & _). unfold self_ax. simpl. congruence.
Qed.

Lemma ignores_self_name k : ignores (Model:=Model) (num:=num) k self_name.
Proof.
  apply ignores_unchanged; [reflexivity|].
  intros s1 s2 (_ & Hn & _). unfold self_name. simpl. congruence.
Qed.

Lemma ignores_self_colors k k' :
  k' <> k -> ignores (Model:=Model) (num:=num) k (self_colors k').
Proof.
  intros Hne. apply ignores_unchanged.
  - intros s. unfold self_colors, dict_getitem.
    destruct (colors (self s) !! k'); reflexivity.
  - intros s1 s2 (_ & _ & _ & _ & Hc). unfold self_colors, dict_getitem.
    rewrite (Hc k' Hne). destruct (colors (self s2) !! k'); reflexivity.
Qed.

Lemma ignores_axes_method k a attr :
  ignores (Model:=Model) (num:=num) k (axes_method a attr).
Proof. apply ignores_unchanged; intros; destruct a; reflexivity. Qed.

Lemma ignores_series_min k (y : list num) :
  ignores (Model:=Model) (num:=num) k (series_min y).
Proof.
  apply ignores_unchanged; intros; unfold series_min;
    destruct (min_of y); reflexivity.
Qed.

Lemma ignores_series_max k (y : list num) :
  ignores (Model:=Model) (num:=num) k (series_max y).
Proof.
  apply ignores_unchanged; intros; unfold series_max;
    destruct (max_of y); reflexivity.
Qed.

Lemma ignores_series_sub k (a b : list num) :
  ignores (Model:=Model) (num:=num) k (series_sub a b).
Proof.
  apply ignores_unchanged; intros; unfold series_sub;
    destruct (decide (length a = length b)); try reflexivity;
    destruct a as [|? [|? ?]], b as [|? [|? ?]]; reflexivity.
Qed.

Lemma ignores_predict k (x : X) : ignores k (ScoreVisualizer_predict x).
Proof.
  apply ignores_unchanged; [reflexivity|].
  intros s1 s2 (He & _). unfold ScoreVisualizer_predict. simpl.
  rewrite He. reflexivity.
Qed.

Lemma ignores_fit k (x : X) (y : list num) :
  ignores k (ScoreVisualizer_fit x y).
Proof.
  intros s1 s2 Hs. pose proof Hs as (He & Hn & Hax & Hp & Hc).
  unfold ScoreVisualizer_fit. rewrite He.
  destruct (est_fit (estimator (self s2)) x y); simpl; [|auto].
  split; [reflexivity|]. repeat split; assumption.
Qed.

Lemma ignores_in_plt {A} k (m : M (Pyplot num) A) :
  ignores (Model:=Model) k (in_plt m).
Proof.
  intros s1 s2 (He & Hn & Hax & Hp & Hc). unfold in_plt. rewrite Hp.
  destruct (m (plt s2)). simpl. split; [reflexivity|].
  repeat split; assumption.
Qed.

Lemma ignores_assign_self_ax k a :
  ignores (Model:=Model) (num:=num) k (assign_self_ax a).
Proof.
  intros s1 s2 (He & Hn & Hax & Hp & Hc). unfold assign_self_ax. simpl.
  split; [reflexivity|]. repeat split; assumption.
Qed.

Create HintDb ignores.
Hint Resolve ignores_ret ignores_raise ignores_self_ax ignores_self_name
  ignores_axes_method ignores_series_min ignores_series_max
  ignores_series_sub ignores_predict ignores_fit ignores_in_plt
  ignores_assign_self_ax : ignores.

Ltac ignores_tac :=
  cbv zeta;
  repeat first
    [ apply ignores_bind; [|intros]
    | match goal with
      | |- ignores _ (if ?b then _ else _) => destruct b
      end
    | apply ignores_self_colors; discriminate
    | solve [auto with ignores] ].

Lemma PredictionError_call_ignores_point (c : Call X num) :
  ignores "point" (PredictionError_call c).
Proof.
  destruct c; simpl;
    unfold PredictionError_score, PredictionError_draw, PredictionError_poof;
    ignores_tac.
Qed.

Lemma ResidualsPlot_call_ignores_line (c : Call X num) :
  ignores "line" (ResidualsPlot_call c).
Proof.
  destruct c; simpl;
    unfold ResidualsPlot_fit, ResidualsPlot_score, ResidualsPlot_draw,
      ResidualsPlot_poof;
    ignores_tac.
Qed.

Lemma ignores_calls k (method : Call X num -> M (State Model num) PyVal)
    (cs : list (Call X num)) (s1 s2 : State Model num) :
  (forall c, ignores k (method c)) ->
  same_but k s1 s2 ->
  call_results method cs s1 = call_results method cs s2 /\
  same_but k (run_calls method cs s1) (run_calls method cs s2).
Proof.
  intros Hm. revert s1 s2. induction cs as [|c cs IH]; intros s1 s2 Hs; simpl.
  - split; [reflexivity|exact Hs].
  - destruct (Hm c s1 s2 Hs) as [Hres Hs']. rewrite Hres.
    destruct (IH _ _ Hs') as [Hrs Hfin]. rewrite Hrs. split; [reflexivity|].
    exact Hfin.
Qed.

(** X10. The [point_color] option of [PredictionError] has no effect.
    When the constructor succeeds on some options it succeeds on all that
    differ from them at most in [point_color], and on the two visualizers
    every sequence of calls returns and raises the same and leaves pyplot
    the same. *)
Theorem PredictionError_point_color_unused (model : Model)
    (kw1 kw2 : gmap string PyVal) (p : Pyplot num) :
  (forall k, k <> "point_color" -> kw1 !! k = kw2 !! k) ->
  forall v1 p1,
    PredictionError_init ScoreVisualizer_init model kw1 p = (Return v1, p1) ->
    exists v2,
      PredictionError_init ScoreVisualizer_init model kw2 p = (Return v2, p1) /\
      forall (p0 : Pyplot num) (cs : list (Call X num)),
        call_results PredictionError_call cs {| self := v1; plt := p0 |}
        = call_results PredictionError_call cs {| self := v2; plt := p0 |} /\
        plt (run_calls PredictionError_call cs {| self := v1; plt := p0 |})
        = plt (run_calls PredictionError_call cs {| self := v2; plt := p0 |}).
Proof.
  intros Hkw v1 p1.
  unfold PredictionError_init, bind, RegressionScoreVisualizer_init,
    ScoreVisualizer_init.
  destruct (isregressor model); simpl; [|discriminate].
  intros [= <- <-]. eexists. split; [reflexivity|]. intros p0 cs.
  match goal with
  | |- call_results _ _ ?a = call_results _ _ ?b /\ _ =>
      destruct (ignores_calls "point" PredictionError_call cs a b PredictionError_call_ignores_point)
        as [Hres (_ & _ & _ & Hp & _)];
      [|split; [exact Hres|exact Hp]]
  end.
  repeat split; simpl.
  - unfold dict_get. rewrite (Hkw "ax") by discriminate. reflexivity.
  - intros k' Hk'. rewrite !(lookup_insert_ne _ "point") by congruence.
    rewrite !lookup_delete_ne by discriminate.
    rewrite (Hkw "line_color") by discriminate. reflexivity.
Qed.

(** X11. The [line_color] option of [ResidualsPlot] has no effect: the
    colour is stored under ['line'] and the reference line of [poof] is
    drawn without it.  When the constructor succeeds on some options it
    succeeds on all that differ from them at most in [line_color], and on
    the two visualizers every sequence of calls returns and raises the same
    and leaves pyplot the same. *)
Theorem ResidualsPlot_line_color_unused (model : Model)
    (kw1 kw2 : gmap string PyVal) (p : Pyplot num) :
  (forall k, k <> "line_color" -> kw1 !! k = kw2 !! k) ->
  forall v1 p1,
    ResidualsPlot_init ScoreVisualizer_init model kw1 p = (Return v1, p1) ->
    exists v2,
      ResidualsPlot_init ScoreVisualizer_init model kw2 p = (Return v2, p1) /\
      forall (p0 : Pyplot num) (cs : list (Call X num)),
        call_results ResidualsPlot_call cs {| self := v1; plt := p0 |}
        = call_results ResidualsPlot_call cs {| self := v2; plt := p0 |} /\
        plt (run_calls ResidualsPlot_call cs {| self := v1; plt := p0 |})
        = plt (run_calls ResidualsPlot_call cs {| self := v2; plt := p0 |}).
Proof.
  intros Hkw v1 p1.
  unfold ResidualsPlot_init, bind, RegressionScoreVisualizer_init,
    ScoreVisualizer_init.
  destruct (isregressor model); simpl; [|discriminate].
  intros [= <- <-]. eexists. split; [reflexivity|]. intros p0 cs.
  match goal with
  | |- call_results _ _ ?a = call_results _ _ ?b /\ _ =>
      destruct (ignores_calls "line" ResidualsPlot_call cs a b ResidualsPlot_call_ignores_line)
        as [Hres (_ & _ & _ & Hp & _)];
      [|split; [exact Hres|exact Hp]]
  end.
  repeat split; simpl.
  - unfold dict_get. rewrite (Hkw "ax") by discriminate. reflexivity.
  - intros k' Hk'.
    rewrite !lookup_delete_ne by discriminate.
    rewrite (Hkw "train_point_color"), (Hkw "test_point_color")
      by discriminate.
    destruct (decide (k' = "train_point")) as [->|H1];
      [rewrite !lookup_insert_eq; reflexivity|].
    rewrite !(lookup_insert_ne _ "train_point") by congruence.
    destruct (decide (k' = "test_point")) as [->|H2];
      [rewrite !lookup_insert_eq; reflexivity|].
    rewrite !(lookup_insert_ne _ "test_point") by congruence.
    rewrite !lookup_insert_ne by congruence. reflexivity.
Qed.


(** *** From the constructor to [poof] *)

Lemma ResidualsPlot_score_exact (s : State Model num) (x : X)
    (y y_pred : list num) (train : bool) (r : Ref)
    (log : list (AxesCall num)) (c : PyVal) :
  est_predict (estimator (self s)) x = Return y_pred ->
  length y_pred = length y ->
  drawing_surface s = Some (r, log) ->
  colors (self s) !! (if train then "train_point" else "test_point") = Some c ->
  exists p1,
    acquired s r log p1 /\
    ResidualsPlot_score x y train s
    = (Return PyNone,
       draw_on {| self := set_ax (self s) (PyAxes r); plt := p1 |} r
         (log ++ [scatter_call y_pred (zip_sub y_pred y) c (Some 40)
                    (Some (if train then Qmake 1 2 else Qmake 1 1))])).
Proof.
  intros Hpred Hlen Hs Hc.
  destruct (ResidualsPlot_draw_exact s r log y_pred (zip_sub y_pred y)
              train c Hs Hc) as (p1 & Hp1 & Hrun).
  { rewrite zip_sub_length; auto. }
  exists p1. split; [exact Hp1|]. unfold ResidualsPlot_score.
  rewrite (bind_Return (ScoreVisualizer_predict x) _ s y_pred s)
    by (unfold ScoreVisualizer_predict; rewrite Hpred; reflexivity).
  rewrite (bind_Return _ _ _ _ _ (series_sub_same_length _ _ _ Hlen)).
  rewrite (bind_Return _ _ _ _ _ Hrun). reflexivity.
Qed.

Lemma init_without_ax (model : Model) (kwargs : gmap string PyVal)
    (p p' : Pyplot num) (v : Visualizer Model) :
  PredictionError_init ScoreVisualizer_init model kwargs p = (Return v, p') \/
  ResidualsPlot_init ScoreVisualizer_init model kwargs p = (Return v, p') ->
  estimator v = model /\ name v = get_model_name model /\
  ax v = dict_get kwargs "ax".
Proof.
  unfold PredictionError_init, ResidualsPlot_init, bind,
    RegressionScoreVisualizer_init, ScoreVisualizer_init.
  destruct (isregressor model); simpl; intros [H|H];
    try discriminate; injection H as <- _; repeat split.
Qed.

(** X12. A [ResidualsPlot] built without an [ax] option, then
    [fit(X, y)], [score(Xt, yt)] and [poof()], when training and both
    predictions succeed with results of the right lengths: the three calls
    return [None], [None] and the surface, which is the one [plt.gca()]
    gave at [fit]; on it are, in this order, the training residuals in
    the [train_point] colour at opacity 0.5, the test residuals in the
    [test_point] colour at opacity 1.0, the zero line, the title, the y
    label and the x label; the figure was shown once. *)
Theorem ResidualsPlot_lifecycle (model m' : Model)
    (kwargs : gmap string PyVal) (p : Pyplot num) (v : Visualizer Model)
    (r : Ref) (log : list (AxesCall num)) (x xt : X)
    (y yt tr te : list num) :
  ResidualsPlot_init ScoreVisualizer_init model kwargs p = (Return v, p) ->
  kwargs !! "ax" = None ->
  drawing_surface {| self := v; plt := p |} = Some (r, log) ->
  est_fit model x y = Return m' ->
  est_predict m' x = Return tr -> length tr = length y ->
  est_predict m' xt = Return te -> length te = length yt ->
  call_results ResidualsPlot_call
    [call_fit x y; call_score xt yt false; call_poof] {| self := v; plt := p |}
  = [Return PyNone; Return PyNone; Return (PyAxes r)] /\
  estimator (self (run_calls ResidualsPlot_call
                     [call_fit x y; call_score xt yt false; call_poof]
                     {| self := v; plt := p |})) = m' /\
  shown (plt (run_calls ResidualsPlot_call
                [call_fit x y; call_score xt yt false; call_poof]
                {| self := v; plt := p |})) = S (shown p) /\
  axes (plt (run_calls ResidualsPlot_call
               [call_fit x y; call_score xt yt false; call_poof]
               {| self := v; plt := p |})) !! r
  = Some (log ++
          [scatter_call tr (zip_sub tr y)
             (default (PyStr "#2B94E9") (kwargs !! "train_point_color"))
             (Some 40) (Some (Qmake 1 2));
           scatter_call te (zip_sub te yt)
             (default (PyStr "#94BA65") (kwargs !! "test_point_color"))
             (Some 40) (Some (Qmake 1 1));
           hlines_call 0 0 100;
           set_title_call ("Residuals for " +:+ get_model_name model +:+ " Model");
           set_ylabel_call "Residuals";
           set_xlabel_call "Predicted Value"]).
Proof.
  intros Hinit Hnoax Hs Hfit Htr Hltr Hte Hlte.
  destruct (init_without_ax _ _ _ _ _ (or_intror Hinit)) as (Hest & Hname & Hax).
  unfold dict_get in Hax. rewrite Hnoax in Hax.
  pose proof (ResidualsPlot_init_colors _ _ _ _ _ Hinit) as Hcolors.
  set (s0 := {| self := v; plt := p |}) in *.
  set (s1 := {| self := set_estimator (self s0) m'; plt := plt s0 |}).
  assert (Hbase : ScoreVisualizer_fit x y s0 = (Return tt, s1)).
  { unfold ScoreVisualizer_fit. simpl. rewrite Hest, Hfit. reflexivity. }
  assert (Hctr : colors (self s1) !! "train_point"
                 = Some (default (PyStr "#2B94E9") (kwargs !! "train_point_color"))).
  { simpl. rewrite Hcolors. apply lookup_insert_eq. }
  destruct (ResidualsPlot_score_exact s1 x y tr true r log _ Htr Hltr Hs Hctr)
    as (p1 & (_ & Hsh1 & _ & Hcur1 & _) & Hscore1).
  set (log1 := log ++ [_]) in Hscore1.
  set (s2 := draw_on _ r log1) in Hscore1.
  assert (H1 : ResidualsPlot_fit x y s0 = (Return PyNone, s2)).
  { unfold ResidualsPlot_fit. rewrite (bind_Return _ _ _ _ _ Hbase).
    rewrite (bind_Return _ _ _ _ _ Hscore1). reflexivity. }
  assert (Hcte : colors (self s2) !! "test_point"
                 = Some (default (PyStr "#94BA65") (kwargs !! "test_point_color"))).
  { simpl. rewrite Hcolors. rewrite lookup_insert_ne by discriminate.
    apply lookup_insert_eq. }
  destruct (ResidualsPlot_score_exact s2 xt yt te false r log1 _ Hte Hlte
              (drawing_surface_draw_on _ _ _ _) Hcte)
    as (p2 & (_ & _ & Hsame2 & _) & H2).
  rewrite (Hsame2 eq_refl) in H2.
  set (log2 := log1 ++ [_]) in H2.
  set (s3 := draw_on _ r log2) in H2.
  pose proof (ResidualsPlot_poof_on_current s3 r log2 eq_refl
                (draw_on_lookup _ _ _) (Hcur1 Hax)) as H3.
  cbn [call_results run_calls ResidualsPlot_call].
  rewrite H1. cbn [fst snd]. rewrite H2. cbn [fst snd]. rewrite H3.
  cbn [fst snd]. split; [reflexivity|]. split; [reflexivity|].
  split; [simpl; rewrite Hsh1; reflexivity|].
  simpl. rewrite lookup_insert_eq. rewrite Hname. subst log2 log1.
  repeat rewrite <- app_assoc. reflexivity.
Qed.

(** X13. A [PredictionError] built without an [ax] option, then
    [score(X, y)] and [poof()], when the prediction succeeds with as many
    values as [y] has, at least one: both calls return the surface, which
    is the one [plt.gca()] gave at [score]; on it are, in this order, the
    scatter, the best-fit line in the [line] colour, the limits, the
    title, the y label and the x label; the figure was shown once. *)
Theorem PredictionError_lifecycle (model : Model)
    (kwargs : gmap string PyVal) (p : Pyplot num) (v : Visualizer Model)
    (r : Ref) (log : list (AxesCall num)) (x : X) (y y_pred : list num)
    (lo hi lo' hi' : num) :
  PredictionError_init ScoreVisualizer_init model kwargs p = (Return v, p) ->
  kwargs !! "ax" = None ->
  drawing_surface {| self := v; plt := p |} = Some (r, log) ->
  est_predict model x = Return y_pred ->
  length y = length y_pred ->
  min_of y = Some lo -> max_of y = Some hi ->
  min_of y_pred = Some lo' -> max_of y_pred = Some hi' ->
  call_results PredictionError_call [call_score x y false; call_poof]
    {| self := v; plt := p |}
  = [Return (PyAxes r); Return (PyAxes r)] /\
  shown (plt (run_calls PredictionError_call [call_score x y false; call_poof]
                {| self := v; plt := p |})) = S (shown p) /\
  axes (plt (run_calls PredictionError_call [call_score x y false; call_poof]
               {| self := v; plt := p |})) !! r
  = Some (log ++
          [scatter_call y y_pred (PyStr "#F2BE2C") None None;
           best_fit_line y y_pred "linear" "--" 2
             (default (PyStr "#2B94E9") (kwargs !! "line_color"));
           set_xlim_call (num_sub lo num_one) (num_add hi num_one);
           set_ylim_call (num_sub lo' num_one) (num_add hi' num_one);
           set_title_call ("Prediction Error for " +:+ get_model_name model);
           set_ylabel_call "Predicted";
           set_xlabel_call "Measured"]).
Proof.
  intros Hinit Hnoax Hs Hpred Hlen Hlo Hhi Hlo' Hhi'.
  destruct (init_without_ax _ _ _ _ _ (or_introl Hinit)) as (Hest & Hname & Hax).
  unfold dict_get in Hax. rewrite Hnoax in Hax.
  pose proof (PredictionError_init_colors _ _ _ _ _ Hinit) as Hcolors.
  set (s0 := {| self := v; plt := p |}) in *.
  assert (Hline : colors (self s0) !! "line"
                  = Some (default (PyStr "#2B94E9") (kwargs !! "line_color"))).
  { simpl. rewrite Hcolors. rewrite lookup_insert_ne by discriminate.
    apply lookup_insert_eq. }
  destruct (PredictionError_draw_exact s0 r log y y_pred _ lo hi lo' hi'
              Hs Hline Hlen Hlo Hhi Hlo' Hhi')
    as (p1 & (_ & Hsh1 & _ & Hcur1 & _) & Hdraw).
  set (log1 := log ++ [_; _; _; _]) in Hdraw.
  set (s1 := draw_on _ r log1) in Hdraw.
  assert (H1 : PredictionError_score x y s0 = (Return (PyAxes r), s1)).
  { unfold PredictionError_score.
    rewrite (bind_Return (ScoreVisualizer_predict x) _ s0 y_pred s0)
      by (unfold ScoreVisualizer_predict; simpl; rewrite Hest, Hpred;
          reflexivity).
    exact Hdraw. }
  pose proof (PredictionError_poof_on_current s1 r log1 eq_refl
                (draw_on_lookup _ _ _) (Hcur1 Hax)) as H2.
  cbn [call_results run_calls PredictionError_call].
  rewrite H1. cbn [fst snd]. rewrite H2. cbn [fst snd].
  split; [reflexivity|]. split; [simpl; rewrite Hsh1; reflexivity|].
  simpl. rewrite lookup_insert_eq. rewrite Hname. subst log1.
  repeat rewrite <- app_assoc. reflexivity.
Qed.

End Coverage.

(** ** More behaviour at concrete visualizers *)

Lemma PredictionError_draw_styling_witness :
  PredictionError_init ScoreVisualizer_init shift black_line (@no_figure Z)
  = (Return (self prediction_error_black), no_figure) /\
  exists s',
    PredictionError_draw [1; 2; 3] [2; 2; 4] prediction_error_black
    = (Return (PyAxes 0%nat), s') /\
    axes (plt s') !! 0%nat
    = Some [scatter_call [1; 2; 3] [2; 2; 4] (PyStr "#F2BE2C") None None;
            best_fit_line [1; 2; 3] [2; 2; 4] "linear" "--" 2 (PyStr "#000000");
            set_xlim_call 0 4; set_ylim_call 1 5].
Proof.
  assert (Hinit : PredictionError_init ScoreVisualizer_init shift black_line
                    (@no_figure Z)
                  = (Return (self prediction_error_black), no_figure))
    by (vm_compute; reflexivity).
  split; [exact Hinit|].
  destruct (PredictionError_draw_styling (est:=Shift_Estimator) shift
              black_line no_figure no_figure (self prediction_error_black)
              prediction_error_black 0%nat [] [1; 2; 3] [2; 2; 4]
              Hinit eq_refl eq_refl eq_refl ltac:(simpl; lia))
    as (s' & lo & hi & lo' & hi' & Hrun & Hlo & Hhi & Hlo' & Hhi' & Hlog).
  injection Hlo as <-. injection Hhi as <-.
  injection Hlo' as <-. injection Hhi' as <-.
  exists s'. split; [exact Hrun|exact Hlog].
Defined.

Lemma PredictionError_poof_finalizes_witness :
  ax (self prediction_error_1) = PyAxes 0%nat /\
  exists s' lc,
    PredictionError_poof prediction_error_1 = (Return (PyAxes 0%nat), s') /\
    shown (plt s') = 1%nat /\
    axes (plt s') !! 0%nat = Some lc /\
    last_set xlabel_of lc = Some "Measured".
Proof.
  split; [reflexivity|].
  destruct (PredictionError_poof_finalizes prediction_error_1 0%nat
              [scatter_call [1; 2; 3] [2; 2; 4] (PyStr "#F2BE2C") None None;
               best_fit_line [1; 2; 3] [2; 2; 4] "linear" "--" 2
                 (PyStr "#2B94E9");
               set_xlim_call 0 4; set_ylim_call 1 5])
    as (s' & rc & lc & Hrun & _ & Hshown & _ & _ & Hcur & Hlc & Hx);
    [reflexivity | reflexivity | eexists; reflexivity |].
  rewrite (Hcur 0%nat eq_refl) in Hlc.
  exists s', lc. repeat split; assumption.
Defined.

Lemma PredictionError_draws_accumulate_witness :
  exists log',
    drawing_surface
      (run_calls PredictionError_call
         (draw_calls [([1; 2], [2; 2]); ([5; 7; 9], [5; 8; 9])])
         prediction_error_0)
    = Some (0%nat, log') /\
    best_fit_lines log' = 2%nat /\
    scatter_marks log' = 5%nat /\
    last_set xlim_of log' = Some (4, 10) /\
    last_set ylim_of log' = Some (4, 10).
Proof.
  destruct (PredictionError_draws_accumulate (est:=Shift_Estimator)
              [([1; 2], [2; 2]); ([5; 7; 9], [5; 8; 9])]
              prediction_error_0 0%nat [] (PyStr "#2B94E9") eq_refl eq_refl)
    as (log' & Hd & Hlines & Hmarks & Hlast).
  { repeat constructor. }
  destruct (Hlast [5; 7; 9] [5; 8; 9] eq_refl)
    as (lo & hi & lo' & hi' & Hlo & Hhi & Hlo' & Hhi' & Hx & Hy).
  injection Hlo as <-. injection Hhi as <-.
  injection Hlo' as <-. injection Hhi' as <-.
  exists log'. repeat split; assumption.
Defined.

Lemma PredictionError_draw_empty_witness :
  (exists s',
      PredictionError_draw [] [] prediction_error_0
      = (Raise (ValueError "zero-size array to reduction operation minimum which has no identity"),
         s') /\
      ax (self s') = PyAxes 0%nat) /\
  (exists s',
      PredictionError_draw_with strict_best_fit [] [] prediction_error_0
      = (Raise (ValueError "Found array with 0 sample(s)"), s') /\
      axes (plt s') !! 0%nat
      = Some [scatter_call [] [] (PyStr "#F2BE2C") None None]) /\
  (exists s',
      PredictionError_draw [] [1] prediction_error_0
      = (Raise (ValueError "x and y must be the same size"), s') /\
      axes (plt s') !! 0%nat = Some []).
Proof.
  split; [|split].
  - destruct (PredictionError_draw_empty (Model:=Shift) draw_best_fit
                prediction_error_0 0%nat [] (PyStr "#2B94E9") []
                eq_refl eq_refl)
      as (p1 & e & p' & _ & Hrun & He).
    unfold draw_best_fit, bind, axes_method, axes_call in He. simpl in He.
    rewrite lookup_insert_eq in He.
    rewrite PredictionError_draw_with_draw_best_fit in Hrun.
    destruct He as [-> _]. eexists. split; [exact Hrun|reflexivity].
  - destruct (PredictionError_draw_empty (Model:=Shift) strict_best_fit
                prediction_error_0 0%nat [] (PyStr "#2B94E9") []
                eq_refl eq_refl)
      as (p1 & e & p' & (Hlog & _) & Hrun & He).
    simpl in He. destruct He as [-> ->].
    eexists. split; [exact Hrun|]. simpl. apply lookup_insert_eq.
  - destruct (PredictionError_draw_empty (Model:=Shift) draw_best_fit
                prediction_error_0 0%nat [] (PyStr "#2B94E9") [1]
                eq_refl eq_refl)
      as (p1 & e & p' & (Hlog & _) & Hrun & -> & ->).
    rewrite PredictionError_draw_with_draw_best_fit in Hrun.
    eexists. split; [exact Hrun|exact Hlog].
Defined.

Lemma ResidualsPlot_draw_marks_witness :
  (exists s' log',
      ResidualsPlot_draw [] [] false residuals_plot_0
      = (Return (PyAxes 0%nat), s') /\
      axes (plt s') !! 0%nat = Some log' /\
      scatter_marks log' = 0%nat) /\
  (exists s' log',
      ResidualsPlot_draw [2; 3] [1; -1] true residuals_plot_0
      = (Return (PyAxes 0%nat), s') /\
      axes (plt s') !! 0%nat = Some log' /\
      scatter_points log'
      = [(2, 1, PyStr "#2B94E9", Some (Qmake 1 2));
         (3, -1, PyStr "#2B94E9", Some (Qmake 1 2))]).
Proof.
  split.
  - destruct (ResidualsPlot_draw_marks residuals_plot_0 0%nat [] [] []
                false (PyStr "#94BA65") eq_refl eq_refl eq_refl)
      as (s' & log' & Hrun & Hlog & Hmarks & _).
    exists s', log'. repeat split; assumption.
  - destruct (ResidualsPlot_draw_marks residuals_plot_0 0%nat [] [2; 3]
                [1; -1] true (PyStr "#2B94E9") eq_refl eq_refl eq_refl)
      as (s' & log' & Hrun & Hlog & _ & Hpoints & _).
    exists s', log'. repeat split; assumption.
Defined.

Lemma ResidualsPlot_score_mismatch_witness :
  est_predict shift [1; 2; 3] = Return [2; 3; 4] /\
  ResidualsPlot_score [1; 2; 3] [1; 2] false residuals_plot_0
  = (Raise (ValueError "operands could not be broadcast together"),
     residuals_plot_0).
Proof.
  split; [reflexivity|].
  apply (ResidualsPlot_score_mismatch (est:=Shift_Estimator)
           residuals_plot_0 [1; 2; 3] [1; 2] [2; 3; 4] false eq_refl);
    simpl; lia.
Defined.

Lemma ResidualsPlot_fit_errors_witness :
  ResidualsPlot_fit [] [] residuals_plot_0
  = (Raise (EstimatorError "Found array with 0 sample(s)"), residuals_plot_0) /\
  ResidualsPlot_fit [1; 2] [3; 4] residuals_plot_mute
  = (Raise (EstimatorError "predict is not available"), residuals_plot_mute).
Proof.
  split.
  - apply (proj1 (ResidualsPlot_fit_errors (est:=Shift_Estimator)
                    residuals_plot_0 [] []
                    (EstimatorError "Found array with 0 sample(s)")) eq_refl).
  - apply (proj2 (ResidualsPlot_fit_errors (est:=Mute_Estimator)
                    residuals_plot_mute [1; 2] [3; 4]
                    (EstimatorError "predict is not available"))
             mute eq_refl eq_refl).
Defined.

Lemma draw_on_held_surface_witness :
  ax (self residuals_plot_1) = PyAxes 0%nat /\
  current (plt (ResidualsPlot_draw [5] [0] true residuals_plot_1).2)
  = current (plt residuals_plot_1) /\
  exists log',
    PredictionError_draw [1; 2] [2; 2] prediction_error_1
    = (Return (PyAxes 0%nat), draw_on prediction_error_1 0%nat log').
Proof.
  split; [reflexivity|]. split.
  - rewrite (proj1 (draw_on_held_surface residuals_plot_1 0%nat
                      [scatter_call [2; 3] [1; -1] (PyStr "#94BA65") (Some 40)
                         (Some (Qmake 1 1))] eq_refl eq_refl)
               [5] [0] true (PyStr "#2B94E9") eq_refl eq_refl).
    reflexivity.
  - destruct (proj2 (draw_on_held_surface prediction_error_1 0%nat
                       [scatter_call [1; 2; 3] [2; 2; 4] (PyStr "#F2BE2C")
                          None None;
                        best_fit_line [1; 2; 3] [2; 2; 4] "linear" "--" 2
                          (PyStr "#2B94E9");
                        set_xlim_call 0 4; set_ylim_call 1 5]
                       eq_refl eq_refl)
                [1; 2] [2; 2] (PyStr "#2B94E9") eq_refl eq_refl
                ltac:(simpl; lia)) as (log' & Hrun & _).
    exists log'. exact Hrun.
Defined.

Lemma calls_frame_witness :
  colors (self (ResidualsPlot_call call_poof residuals_plot_1).2)
  = colors (self residuals_plot_1) /\
  shown (plt (ResidualsPlot_call (call_fit [1; 2] [3; 4]) residuals_plot_1).2)
  = shown (plt residuals_plot_1) /\
  estimator (self (PredictionError_call (call_score [1; 2] [3; 4] false)
                     prediction_error_0).2)
  = shift.
Proof.
  split; [|split].
  - apply (calls_frame (est:=Shift_Estimator) ResidualsPlot_call
             (or_intror eq_refl) call_poof residuals_plot_1).
  - apply (calls_frame (est:=Shift_Estimator) ResidualsPlot_call
             (or_intror eq_refl) (call_fit [1; 2] [3; 4]) residuals_plot_1).
    discriminate.
  - apply (calls_frame (est:=Shift_Estimator) PredictionError_call
             (or_introl eq_refl) (call_score [1; 2] [3; 4] false)
             prediction_error_0).
    discriminate.
Defined.

Lemma PredictionError_point_color_unused_witness :
  exists v2,
    PredictionError_init ScoreVisualizer_init shift
      {["point_color" := PyStr "#000000"]} (@no_figure Z)
    = (Return v2, no_figure) /\
    plt (run_calls PredictionError_call
           [call_score [1; 2; 3] [1; 3; 3] false; call_poof]
           {| self := v2; plt := no_figure |})
    = plt (run_calls PredictionError_call
             [call_score [1; 2; 3] [1; 3; 3] false; call_poof]
             prediction_error_0).
Proof.
  destruct (PredictionError_point_color_unused (est:=Shift_Estimator) shift
              ∅ {["point_color" := PyStr "#000000"]} no_figure)
    with (v1 := self prediction_error_0) (p1 := @no_figure Z)
    as (v2 & Hinit & Hsame).
  - intros k Hk. rewrite lookup_empty, lookup_singleton_ne by congruence.
    reflexivity.
  - vm_compute. reflexivity.
  - exists v2. split; [exact Hinit|].
    symmetry. apply (Hsame no_figure).
Defined.

Lemma ResidualsPlot_line_color_unused_witness :
  exists v2,
    ResidualsPlot_init ScoreVisualizer_init shift
      {["line_color" := PyStr "#FF0000"]} (@no_figure Z)
    = (Return v2, no_figure) /\
    plt (run_calls ResidualsPlot_call
           [call_fit [1; 2; 3] [3; 3; 6]; call_poof]
           {| self := v2; plt := no_figure |})
    = plt (run_calls ResidualsPlot_call
             [call_fit [1; 2; 3] [3; 3; 6]; call_poof]
             residuals_plot_0).
Proof.
  destruct (ResidualsPlot_line_color_unused (est:=Shift_Estimator) shift
              ∅ {["line_color" := PyStr "#FF0000"]} no_figure)
    with (v1 := self residuals_plot_0) (p1 := @no_figure Z)
    as (v2 & Hinit & Hsame).
  - intros k Hk. rewrite lookup_empty, lookup_singleton_ne by congruence.
    reflexivity.
  - vm_compute. reflexivity.
  - exists v2. split; [exact Hinit|].
    symmetry. apply (Hsame no_figure).
Defined.

Lemma ResidualsPlot_lifecycle_witness :
  call_results ResidualsPlot_call
    [call_fit [1; 2; 3] [3; 3; 6]; call_score [10] [11] false; call_poof]
    residuals_plot_0
  = [Return PyNone; Return PyNone; Return (PyAxes 0%nat)] /\
  axes (plt (run_calls ResidualsPlot_call
               [call_fit [1; 2; 3] [3; 3; 6]; call_score [10] [11] false;
                call_poof]
               residuals_plot_0)) !! 0%nat
  = Some [scatter_call [3; 4; 5] [0; 1; -1] (PyStr "#2B94E9") (Some 40)
            (Some (Qmake 1 2));
          scatter_call [12] [1] (PyStr "#94BA65") (Some 40)
            (Some (Qmake 1 1));
          hlines_call 0 0 100;
          set_title_call "Residuals for Shift Model";
          set_ylabel_call "Residuals";
          set_xlabel_call "Predicted Value"].
Proof.
  destruct (ResidualsPlot_lifecycle (est:=Shift_Estimator) shift
              {| regressor := true; offset := 2 |} ∅ no_figure
              (self residuals_plot_0) 0%nat [] [1; 2; 3] [10]
              [3; 3; 6] [11] [3; 4; 5] [12])
    as (Hres & _ & _ & Hlog);
    try reflexivity.
  split; [exact Hres|exact Hlog].
Defined.

Lemma PredictionError_lifecycle_witness :
  call_results PredictionError_call
    [call_score [1; 2; 3] [1; 3; 3] false; call_poof] prediction_error_0
  = [Return (PyAxes 0%nat); Return (PyAxes 0%nat)] /\
  axes (plt (run_calls PredictionError_call
               [call_score [1; 2; 3] [1; 3; 3] false; call_poof]
               prediction_error_0)) !! 0%nat
  = Some [scatter_call [1; 3; 3] [2; 3; 4] (PyStr "#F2BE2C") None None;
          best_fit_line [1; 3; 3] [2; 3; 4] "linear" "--" 2 (PyStr "#2B94E9");
          set_xlim_call 0 4; set_ylim_call 1 5;
          set_title_call "Prediction Error for Shift";
          set_ylabel_call "Predicted";
          set_xlabel_call "Measured"].
Proof.
  destruct (PredictionError_lifecycle (est:=Shift_Estimator) shift ∅
              no_figure (self prediction_error_0) 0%nat [] [1; 2; 3]
              [1; 3; 3] [2; 3; 4] 1 3 2 4)
    as (Hres & _ & Hlog);
    try reflexivity.
  split; [exact Hres|exact Hlog].
Defined.

Lemma PredictionError_draw_mismatch_witness :
  exists p',
    PredictionError_draw [1; 2] [1] prediction_error_0
    = (Raise (ValueError "x and y must be the same size"),
       {| self := set_ax (self prediction_error_0) (PyAxes 0%nat);
          plt := p' |}) /\
    axes p' !! 0%nat = Some [].
Proof.
  apply (PredictionError_draw_mismatch prediction_error_0 0%nat [] [1; 2] [1]);
    [reflexivity|simpl; lia].
Defined.

Lemma ResidualsPlot_draw_mismatch_witness :
  exists p',
    ResidualsPlot_draw [1; 2] [1] false residuals_plot_0
    = (Raise (ValueError "x and y must be the same size"),
       {| self := set_ax (self residuals_plot_0) (PyAxes 0%nat);
          plt := p' |}) /\
    axes p' !! 0%nat = Some [].
Proof.
  apply (ResidualsPlot_draw_mismatch residuals_plot_0 0%nat [] [1; 2] [1]
           false (PyStr "#94BA65"));
    [reflexivity|reflexivity|simpl; lia].
Defined.
